(** * Flow-log analyzer: a shallow embedding of [flow_analyzer.py]

    The development follows the source file top-down: the Python
    built-ins the analyzer relies on ([str.strip], [str.split],
    [str.lower], [int], text-mode line iteration, [sorted]), the
    [PROTOCOL_MAP] table, and the three methods of [LogAnalyzer]
    ([parse_lookup_table], [log_parser], [write_results]).

    Text is [String.string]; a character stands for the code point of
    the same number, so the model covers text whose code points are
    below 256 and the built-ins below agree with CPython on that range. *)

From Stdlib Require Import ZArith NArith Ascii String List Bool Lia.
From Stdlib Require Import Sorting.Sorted Sorting.Permutation.
From stdpp Require Import base gmap strings list fin_maps fin_sets pretty.

Local Open Scope string_scope.
Local Open Scope list_scope.
Local Open Scope Z_scope.

(** ** Python built-ins on text *)

Module Py.

Definition code (c : ascii) : N := N_of_ascii c.

(** [str.isspace] on one character: the ASCII table of CPython
    (TAB..CR, FS..US, SPACE) and, above it, NEL and NBSP. *)
Definition isspace (c : ascii) : bool :=
  let n := code c in
  (((9 <=? n) && (n <=? 13)) || ((28 <=? n) && (n <=? 32))
   || (n =? 133) || (n =? 160))%N.

(** [str.lower] on one character: A..Z and the capital letters of the
    upper half (all of C0..DE but the multiplication sign) move by 32. *)
Definition lower_char (c : ascii) : ascii :=
  let n := code c in
  if (((65 <=? n) && (n <=? 90))
      || ((192 <=? n) && (n <=? 222) && negb (n =? 215)))%N
  then ascii_of_N (n + 32) else c.

Fixpoint lower (s : string) : string :=
  match s with
  | EmptyString => EmptyString
  | String c s' => String (lower_char c) (lower s')
  end.

Fixpoint lstrip (s : string) : string :=
  match s with
  | EmptyString => EmptyString
  | String c s' => if isspace c then lstrip s' else s
  end.

Fixpoint rstrip (s : string) : string :=
  match s with
  | EmptyString => EmptyString
  | String c s' =>
      match rstrip s' with
      | EmptyString => if isspace c then EmptyString else String c EmptyString
      | r => String c r
      end
  end.

(** [s.strip()] *)
Definition strip (s : string) : string := lstrip (rstrip s).

(** [s.split(sep)] for a one-character separator: empty fields are
    kept, and the empty string gives one empty field. *)
Fixpoint split_on (sep : ascii) (s : string) : list string :=
  match s with
  | EmptyString => [EmptyString]
  | String c s' =>
      if Ascii.eqb c sep then EmptyString :: split_on sep s'
      else match split_on sep s' with
           | [] => [String c EmptyString]
           | f :: fs => String c f :: fs
           end
  end.

(** [s.split()]: fields are the maximal runs of non-space characters. *)
Fixpoint split (s : string) : list string :=
  match s with
  | EmptyString => []
  | String c s' =>
      if isspace c then split s'
      else match s' with
           | EmptyString => [String c EmptyString]
           | String c' _ =>
               if isspace c' then String c EmptyString :: split s'
               else match split s' with
                    | [] => [String c EmptyString]
                    | w :: ws => String c w :: ws
                    end
           end
  end.

(** Lines of a file opened in text mode (universal newlines): each of
    LF, CR LF and CR ends a line and is read as LF; the terminator stays
    on the line. *)
Definition LF : ascii := "010".
Definition CR : ascii := "013".

Fixpoint readlines (s : string) : list string :=
  match s with
  | EmptyString => []
  | String c s' =>
      if Ascii.eqb c LF then String LF EmptyString :: readlines s'
      else if Ascii.eqb c CR then
        match s' with
        | EmptyString => [String LF EmptyString]
        | String c' s'' =>
            if Ascii.eqb c' LF then String LF EmptyString :: readlines s''
            else String LF EmptyString :: readlines s'
        end
      else match readlines s' with
           | [] => [String c EmptyString]
           | l :: ls => String c l :: ls
           end
  end.

(** [int(s)] in base 10: surrounding white space is dropped, one sign
    is allowed, and digits may be separated by single underscores.
    [None] stands for [ValueError].  (The interpreter's optional cap on
    the number of digits is a run-time setting and is not represented.) *)
Definition digit_value (c : ascii) : option Z :=
  let n := code c in
  if ((48 <=? n) && (n <=? 57))%N then Some (Z.of_N (n - 48)) else None.

Fixpoint int_digits (acc : Z) (after_digit : bool) (s : string) : option Z :=
  match s with
  | EmptyString => if after_digit then Some acc else None
  | String c s' =>
      if Ascii.eqb c "_" then
        if after_digit then int_digits acc false s' else None
      else match digit_value c with
           | Some d => int_digits (10 * acc + d) true s'
           | None => None
           end
  end.

Definition int (s : string) : option Z :=
  match strip s with
  | String c r =>
      if Ascii.eqb c "+" then int_digits 0 false r
      else if Ascii.eqb c "-" then Z.opp <$> int_digits 0 false r
      else int_digits 0 false (String c r)
  | EmptyString => None
  end.

(** [a < b] on [str]: lexicographic on code points. *)
Definition str_lt (a b : string) : bool := String.ltb a b.

(** [sorted(l, key=...)], given the comparison [lt] that the keys
    induce.  Python's sort is stable, and a stable sort has only one
    possible result, so insertion from the right stands for it. *)
Section Sorted.
Context {A : Type} (lt : A -> A -> bool).

Fixpoint insert (x : A) (l : list A) : list A :=
  match l with
  | [] => [x]
  | y :: l' => if lt y x then y :: insert x l' else x :: l
  end.

Definition sorted (l : list A) : list A := foldr insert [] l.
End Sorted.

End Py.

(** ** The protocol table *)

(** [PROTOCOL_MAP]: a dict from protocol number (as text) to name, in
    the order of the source. *)
Definition PROTOCOL_MAP : list (string * string) :=
  [ ("0", "hopopt"); ("1", "icmp"); ("2", "igmp"); ("3", "ggp");
    ("4", "ipv4"); ("5", "st"); ("6", "tcp"); ("17", "udp");
    ("41", "ipv6"); ("43", "ipv6-route"); ("44", "ipv6-frag");
    ("47", "gre"); ("50", "esp"); ("51", "ah"); ("58", "ipv6-icmp");
    ("89", "ospf"); ("103", "pim"); ("132", "sctp") ].

(** [d.get(key, default)] *)
Definition dict_get (d : list (string * string)) (key default : string) : string :=
  match find (fun kv => String.eqb (fst kv) key) d with
  | Some kv => snd kv
  | None => default
  end.

(** [PROTOCOL_MAP.get(protocol, protocol.lower())], the protocol
    resolution of [log_parser]. *)
Definition resolveProtocol (protocol : string) : string :=
  dict_get PROTOCOL_MAP protocol (Py.lower protocol).

(** ** Files, logging and process exit *)

(** What [open(path, 'r')] and reading it give. *)
Inductive file :=
| Missing                      (* FileNotFoundError *)
| Unreadable                   (* any other exception while opening or reading *)
| Contents (text : string).

(** Records handed to [logger]; the text of a caught exception is left out. *)
Inductive log_record :=
| Skipping_malformed_line (stripped : string)   (* warning, both parsers *)
| Error_processing_line (stripped : string)     (* warning, parse_lookup_table *)
| Unable_to_process_line (stripped : string)    (* warning, log_parser *)
| Could_not_find                                (* error *)
| Error_loading_lookup_table                    (* error *)
| Error_processing_file                         (* error *)
| Error_writing_results.                        (* error *)

Definition is_warning (r : log_record) : bool :=
  match r with
  | Skipping_malformed_line _ | Error_processing_line _
  | Unable_to_process_line _ => true
  | _ => false
  end.

(** A call either returns or ends the process with [sys.exit(status)]. *)
Inductive outcome (A : Type) :=
| Returns (a : A)
| Exits (status : Z).
Arguments Returns {A} a.
Arguments Exits {A} status.

(** ** [LogAnalyzer] *)

(** [port_rule_dictionary]: (port, protocol) to the set of its tags. *)
Abbreviation RuleIndex := (gmap (Z * string) (gset string)).
(** [tag_count]; the order of its keys is never observed ([write_results]
    sorts them), so it is a finite map. *)
Abbreviation TagCounts := (gmap string nat).
(** [port_protocol_count]: a dict in insertion order, which the stable
    sort of [write_results] exposes. *)
Abbreviation PortProtocolCounts := (list ((Z * string) * nat)).

Record LogAnalyzer := {
  has_headers : bool;
  port_rule_dictionary : RuleIndex
}.

(** *** [parse_lookup_table] *)

(** [[field.strip() for field in line.strip().split(',')]] *)
Definition lookup_row (line : string) : list string :=
  map Py.strip (Py.split_on "," (Py.strip line)).

(** [if key not in d: d[key] = set()] then [d[key].add(tag)] *)
Definition add_tag (key : Z * string) (tag : string) (d : RuleIndex) : RuleIndex :=
  let d1 := match d !! key with
            | None => <[key := ∅]> d
            | Some _ => d
            end in
  alter (fun tags => tags ∪ {[tag]}) key d1.

(** The body of the loop over the lines of the lookup table. *)
Definition lookup_line (st : RuleIndex * list log_record) (line : string)
  : RuleIndex * list log_record :=
  let '(d, log) := st in
  let row := lookup_row line in
  if (length row <? 3)%nat then
    (d, log ++ [Skipping_malformed_line (Py.strip line)])
  else
    match Py.int (nth 0 row "") with
    | None => (d, log ++ [Error_processing_line (Py.strip line)])
    | Some port =>
        let protocol := Py.lower (nth 1 row "") in
        let tag := nth 2 row "" in
        (add_tag (port, protocol) tag d, log)
    end.

(** The lines the loop runs over: [lines[1:]] when there is a header. *)
Definition skip_header (has_headers : bool) (lines : list string) : list string :=
  if has_headers then tail lines else lines.

Definition parse_lookup_lines (has_headers : bool) (lines : list string)
    (d : RuleIndex) : RuleIndex * list log_record :=
  fold_left lookup_line (skip_header has_headers lines) (d, []).

Definition parse_lookup_table (self : LogAnalyzer) (lookup_table_file : file)
  : outcome LogAnalyzer * list log_record :=
  match lookup_table_file with
  | Missing => (Exits 1, [Could_not_find])
  | Unreadable => (Exits 1, [Error_loading_lookup_table])
  | Contents text =>
      let '(d, log) :=
        parse_lookup_lines (has_headers self) (Py.readlines text)
                           (port_rule_dictionary self) in
      (Returns {| has_headers := has_headers self; port_rule_dictionary := d |}, log)
  end.

(** [LogAnalyzer(lookup_table_file, has_headers)] *)
Definition LogAnalyzer_init (lookup_table_file : file) (has_headers : bool)
  : outcome LogAnalyzer * list log_record :=
  parse_lookup_table {| has_headers := has_headers; port_rule_dictionary := ∅ |}
                     lookup_table_file.

(** *** [log_parser] *)

(** [tag_count[tag] += 1] on a [defaultdict(int)] *)
Definition incr_tag (tag : string) (tc : TagCounts) : TagCounts :=
  <[tag := S (default 0%nat (tc !! tag))]> tc.

(** [port_protocol_count[key] += 1] on a [defaultdict(int)]: a present
    key keeps its place, a new key goes to the end. *)
Fixpoint incr_pair (key : Z * string) (d : PortProtocolCounts) : PortProtocolCounts :=
  match d with
  | [] => [(key, 1%nat)]
  | (k, n) :: d' =>
      if decide (k = key) then (k, S n) :: d' else (k, n) :: incr_pair key d'
  end.

Record counts := {
  tag_count : TagCounts;
  port_protocol_count : PortProtocolCounts
}.

(** The body of the loop over the lines of the flow log. *)
Definition log_line (index : RuleIndex) (st : counts * list log_record)
    (line : string) : counts * list log_record :=
  let '(c, log) := st in
  let fields := Py.split (Py.strip line) in
  if (length fields <? 14)%nat then
    (c, log ++ [Skipping_malformed_line (Py.strip line)])
  else
    match Py.int (nth 6 fields "") with
    | None => (c, log ++ [Unable_to_process_line (Py.strip line)])
    | Some dst_port =>
        let protocol := resolveProtocol (nth 7 fields "") in
        let ppc := incr_pair (dst_port, protocol) (port_protocol_count c) in
        let key := (dst_port, protocol) in
        let tags := default (∅ : gset string) (index !! key) in
        let tc := if decide (tags ≠ ∅)
                  then set_fold incr_tag (tag_count c) tags
                  else incr_tag "Untagged" (tag_count c) in
        ({| tag_count := tc; port_protocol_count := ppc |}, log)
    end.

Definition no_counts : counts :=
  {| tag_count := ∅; port_protocol_count := [] |}.

Definition log_lines (index : RuleIndex) (lines : list string)
  : counts * list log_record :=
  fold_left (log_line index) lines (no_counts, []).

(** The part of [log_parser] that runs once the file is open, on the
    lines the file delivers.  [next(file)] on an exhausted file raises
    [StopIteration], which the [except Exception] clause turns into
    [sys.exit(1)]. *)
Definition log_parser_lines (self : LogAnalyzer) (lines : list string)
  : outcome (TagCounts * PortProtocolCounts) * list log_record :=
  let run lines :=
    let '(c, log) := log_lines (port_rule_dictionary self) lines in
    (Returns (tag_count c, port_protocol_count c), log) in
  if has_headers self then
    match lines with
    | [] => (Exits 1, [Error_processing_file])
    | _ :: lines => run lines
    end
  else run lines.

Definition log_parser (self : LogAnalyzer) (log_file : file)
  : outcome (TagCounts * PortProtocolCounts) * list log_record :=
  match log_file with
  | Missing => (Exits 1, [Could_not_find])
  | Unreadable => (Exits 1, [Error_processing_file])
  | Contents text => log_parser_lines self (Py.readlines text)
  end.

(** *** [write_results] *)

Definition nl : string := String Py.LF EmptyString.

(** [<] on the [(tag, count)] tuples of [tag_count.items()] *)
Definition item_lt (x y : string * nat) : bool :=
  Py.str_lt (fst x) (fst y)
  || (String.eqb (fst x) (fst y) && (snd x <? snd y)%nat).

(** The inner loop over [PROTOCOL_MAP.items()]: the first value equal
    to [protocol], when there is one, else [protocol] itself. *)
Definition protocol_name (protocol : string) : string :=
  match find (fun kv => String.eqb (snd kv) protocol) PROTOCOL_MAP with
  | Some kv => snd kv
  | None => protocol
  end.

Definition sorted_counts (ppc : PortProtocolCounts) : list (Z * string * nat) :=
  map (fun '((port, protocol), count) => (port, protocol_name protocol, count)) ppc.

(** [key=lambda x: int(x[0])]: the port, already an integer *)
Definition port_lt (x y : Z * string * nat) : bool := x.1.1 <? y.1.1.

Definition tag_row (item : string * nat) : string :=
  item.1 +:+ "," +:+ pretty item.2 +:+ nl.

Definition port_row (x : Z * string * nat) : string :=
  pretty x.1.1 +:+ "," +:+ x.1.2 +:+ "," +:+ pretty x.2 +:+ nl.

(** The arguments of the successive [f.write] calls. *)
Definition report (tag_count : TagCounts) (ppc : PortProtocolCounts) : list string :=
  ["Tag Counts:" +:+ nl; "Tag,Count" +:+ nl]
  ++ map tag_row (Py.sorted item_lt (map_to_list tag_count))
  ++ [nl; "Port/Protocol Combination Counts:" +:+ nl; "Port,Protocol,Count" +:+ nl]
  ++ map port_row (Py.sorted port_lt (sorted_counts ppc)).

(** How the output file behaves. *)
Inductive sink :=
| Unopenable          (* open(output_file, 'w') raises: the file is not touched *)
| Breaks (n : nat)    (* the file is created or emptied, [n] calls of write
                         pass, then a write or the closing of the file raises *)
| Sound.              (* the file is created or emptied and every call passes *)

(** The result of the call, its log, and what the output file holds
    afterwards: [None] when it was not touched, else the chunks of the
    calls of [f.write] that passed.  Any exception inside [write_results]
    ends the process with [sys.exit(1)]. *)
Definition write_results (output : sink) (tag_count : TagCounts)
    (ppc : PortProtocolCounts)
  : outcome unit * list log_record * option (list string) :=
  match output with
  | Unopenable => (Exits 1, [Error_writing_results], None)
  | Breaks n => (Exits 1, [Error_writing_results], Some (take n (report tag_count ppc)))
  | Sound => (Returns tt, [], Some (report tag_count ppc))
  end.

(** ** Reading the mappings *)

(** [tag_count.get(tag, 0)] *)
Definition tag_total (tc : TagCounts) (tag : string) : nat :=
  default 0%nat (tc !! tag).

(** [port_protocol_count.get(key, 0)] *)
Fixpoint pair_total (ppc : PortProtocolCounts) (key : Z * string) : nat :=
  match ppc with
  | [] => 0%nat
  | (k, n) :: ppc' => if decide (k = key) then n else pair_total ppc' key
  end.

(** [index.get(key, set())] *)
Definition tags_of (index : RuleIndex) (key : Z * string) : gset string :=
  default ∅ (index !! key).

(** The entry a line of the lookup table stands for, when it is a valid row. *)
Definition lookup_entry (line : string) : option ((Z * string) * string) :=
  let row := lookup_row line in
  if (length row <? 3)%nat then None
  else port ← Py.int (nth 0 row "");
       Some ((port, Py.lower (nth 1 row "")), nth 2 row "").

(** The (port, protocol) pair a line of the flow log stands for, when it
    is a valid record. *)
Definition log_entry (line : string) : option (Z * string) :=
  let fields := Py.split (Py.strip line) in
  if (length fields <? 14)%nat then None
  else port ← Py.int (nth 6 fields "");
       Some (port, resolveProtocol (nth 7 fields "")).

(** ** Notions used in the statements *)

(** The index alone, without the log. *)
Definition index_step (d : RuleIndex) (line : string) : RuleIndex :=
  match lookup_entry line with
  | Some (key, tag) => add_tag key tag d
  | None => d
  end.

(** What one valid record does to the tag counts. *)
Definition count_tags (index : RuleIndex) (key : Z * string) (tc : TagCounts)
  : TagCounts :=
  if decide (tags_of index key ≠ ∅)
  then set_fold incr_tag tc (tags_of index key)
  else incr_tag "Untagged" tc.

(** The counts alone, without the log. *)
Definition count_step (index : RuleIndex) (c : counts) (line : string) : counts :=
  match log_entry line with
  | Some key =>
      {| tag_count := count_tags index key (tag_count c);
         port_protocol_count := incr_pair key (port_protocol_count c) |}
  | None => c
  end.

(** A row with its protocol field lowercased: two lines with the same
    image differ at most in the letter case of that field (and in white
    space around fields). *)
Definition case_folded_row (line : string) : list string :=
  match lookup_row line with
  | port :: protocol :: rest => port :: Py.lower protocol :: rest
  | row => row
  end.

Definition folded_entry (row : list string) : option ((Z * string) * string) :=
  if (length row <? 3)%nat then None
  else port ← Py.int (nth 0 row ""); Some ((port, nth 1 row ""), nth 2 row "").

(** The lines each parser skips. *)
Definition lookup_malformed (line : string) : Prop :=
  (length (lookup_row line) < 3)%nat
  \/ Py.int (nth 0 (lookup_row line) "") = None.

Definition log_malformed (line : string) : Prop :=
  (length (Py.split (Py.strip line)) < 14)%nat
  \/ Py.int (nth 6 (Py.split (Py.strip line)) "") = None.

(** Every set of the index holds at least one tag. *)
Definition no_empty_set (d : RuleIndex) : Prop :=
  forall key tags, d !! key = Some tags -> tags ≠ ∅.

(** Every count that is present is at least one. *)
Definition positive_tags (tc : TagCounts) : Prop :=
  forall tag n, tc !! tag = Some n -> (1 <= n)%nat.

Definition positive_pairs (ppc : PortProtocolCounts) : Prop :=
  forall key n, In (key, n) ppc -> (1 <= n)%nat.

(** The keys of a sequence, each at the place of its first occurrence. *)
Definition first_seen (keys : list (Z * string)) : list (Z * string) :=
  fold_left (fun seen key => if decide (key ∈ seen) then seen else seen ++ [key])
            keys [].


(** The lookup table of the test suite. *)
Definition lookup_table_of_test : string :=
  "dstport,protocol,tag" +:+ nl +:+ "80,TCP,web" +:+ nl
  +:+ "443,tcp,ssl" +:+ nl +:+ "22,TcP,ssh".

(** A flow-log record of the test suite: port 80, protocol 6. *)
Definition record_of_test : string :=
  "1 123 eth0 192.168.1.1 10.0.0.1 1234 80 6 10 1000 1610000000 1610000010 ACCEPT OK"
  +:+ nl.

(** The same record with port 8080 and protocol 17. *)
Definition untagged_record_of_test : string :=
  "1 123 eth0 192.168.1.1 10.0.0.1 1234 8080 17 10 1000 1610000000 1610000010 ACCEPT OK"
  +:+ nl.

(** ** [main] *)

(** What [main] can reach outside the process: what opening a path for
    reading gives, and how a path behaves when opened for writing. *)
Record filesystem := {
  open_read : string -> file;
  open_write : string -> sink
}.

(** What a run of [main] leaves behind, in order. *)
Inductive main_event :=
| Printed (text : string)                          (* print *)
| Logged (r : log_record)                          (* logger.warning, logger.error *)
| Written (path : string) (chunks : list string)   (* the output file *)
| Analysis_complete (path : string).               (* logger.info *)

Definition usage : string :=
  "Usage: python illumio.py <lookup_table_file> <log_file> <output_file> [--no-headers]".

(** The event of the output file, when the file was touched. *)
Definition file_event (path : string) (held : option (list string)) : list main_event :=
  match held with
  | Some chunks => [Written path chunks]
  | None => []
  end.

(** [sys.argv[4] == '--no-headers'] when there are five arguments. *)
Definition no_headers_flag (argv : list string) : bool :=
  (length argv =? 5)%nat && String.eqb (nth 4 argv "") "--no-headers".

(** [main()], given [sys.argv]: the exit status of the process and its
    events.  [sys.exit] inside a method raises [SystemExit], which the
    [except Exception] clause of [main] lets through. *)
Definition main (argv : list string) (fs : filesystem) : Z * list main_event :=
  if negb ((length argv =? 4)%nat || (length argv =? 5)%nat) then
    (1, [Printed usage])
  else
    let lookup_file := nth 1 argv "" in
    let flow_log_file := nth 2 argv "" in
    let output_file := nth 3 argv "" in
    let has_headers := negb (no_headers_flag argv) in
    match LogAnalyzer_init (open_read fs lookup_file) has_headers with
    | (Exits status, log1) => (status, Logged <$> log1)
    | (Returns analyzer, log1) =>
        match log_parser analyzer (open_read fs flow_log_file) with
        | (Exits status, log2) => (status, Logged <$> (log1 ++ log2))
        | (Returns (tag_count, port_protocol_count), log2) =>
            match write_results (open_write fs output_file)
                                tag_count port_protocol_count with
            | (Exits status, log3, held) =>
                (status, (Logged <$> (log1 ++ log2))
                         ++ file_event output_file held ++ (Logged <$> log3))
            | (Returns _, log3, held) =>
                (0, (Logged <$> (log1 ++ log2 ++ log3))
                    ++ file_event output_file held
                    ++ [Analysis_complete output_file])
            end
        end
    end.

(** ** Notions used in the statements on whole runs *)

(** The warning [parse_lookup_table] logs for a line, if it skips it. *)
Definition lookup_warning (line : string) : option log_record :=
  if (length (lookup_row line) <? 3)%nat then
    Some (Skipping_malformed_line (Py.strip line))
  else match Py.int (nth 0 (lookup_row line) "") with
       | None => Some (Error_processing_line (Py.strip line))
       | Some _ => None
       end.

(** The warning [log_parser] logs for a line, if it skips it. *)
Definition log_warning (line : string) : option log_record :=
  if (length (Py.split (Py.strip line)) <? 14)%nat then
    Some (Skipping_malformed_line (Py.strip line))
  else match Py.int (nth 6 (Py.split (Py.strip line)) "") with
       | None => Some (Unable_to_process_line (Py.strip line))
       | Some _ => None
       end.

(** The pairs of the valid records among the lines of a flow log. *)
Definition records (has_headers : bool) (lines : list string) : list (Z * string) :=
  omap log_entry (skip_header has_headers lines).

(** The entries of the valid rows among the lines of a lookup table. *)
Definition entries (has_headers : bool) (lines : list string)
  : list ((Z * string) * string) :=
  omap lookup_entry (skip_header has_headers lines).

(** How often a key occurs in a list. *)
Definition occurrences (key : Z * string) (keys : list (Z * string)) : nat :=
  length (List.filter (fun k => bool_decide (k = key)) keys).

(** What a record with this pair adds to the count of one tag. *)
Definition tag_hits (index : RuleIndex) (tag : string) (key : Z * string) : nat :=
  if decide (tags_of index key ≠ ∅)
  then (if decide (tag ∈ tags_of index key) then 1 else 0)%nat
  else (if decide (tag = "Untagged") then 1 else 0)%nat.

(** The number of tag counts a record with this pair raises. *)
Definition fan_out (index : RuleIndex) (key : Z * string) : nat :=
  if decide (tags_of index key ≠ ∅) then size (tags_of index key) else 1%nat.

(** The sum of all the counts of [tag_count]. *)
Definition tags_sum (tc : TagCounts) : nat :=
  map_fold (fun _ n acc => (n + acc)%nat) 0%nat tc.

(** A decimal digit. *)
Definition is_digit (c : ascii) : bool :=
  ((48 <=? Py.code c) && (Py.code c <=? 57))%N.

Fixpoint all_digits (s : string) : bool :=
  match s with
  | EmptyString => true
  | String c s' => is_digit c && all_digits s'
  end.

(** All the characters, for checks by cases. *)
Definition all_ascii : list ascii :=
  map (fun n => ascii_of_nat n) (seq 0 256).

(** A small run: an index with two tags on (80,tcp), and a flow log of
    three valid records and one line that is too short. *)
Definition analyzer_of_example : LogAnalyzer :=
  {| has_headers := false;
     port_rule_dictionary := {[ (80, "tcp") := {[ "web"; "http" ]} ]} |}.

Definition log_of_example : string :=
  untagged_record_of_test +:+ record_of_test +:+ "too short" +:+ nl
  +:+ record_of_test.

Definition tag_count_of_example : TagCounts :=
  {[ "web" := 2%nat; "http" := 2%nat; "Untagged" := 1%nat ]}.

Definition port_protocol_count_of_example : PortProtocolCounts :=
  [((8080, "udp"), 1%nat); ((80, "tcp"), 2%nat)].

(** A small file system: the lookup table and a flow log of the test
    suite, and one place to write to. *)
Definition fs_of_example : filesystem :=
  {| open_read := fun path =>
       if String.eqb path "lookup.csv" then Contents lookup_table_of_test
       else if String.eqb path "flow.log" then
         Contents ("version account_id interface_id srcaddr dstaddr srcport dstport protocol packets bytes start end action log_status"
                   +:+ nl +:+ record_of_test +:+ untagged_record_of_test)
       else Missing;
     open_write := fun path =>
       if String.eqb path "out.txt" then Sound else Unopenable |}.

(** The same file system with an output file that breaks after three
    calls of write. *)
Definition fs_of_broken_example : filesystem :=
  {| open_read := open_read fs_of_example;
     open_write := fun path =>
       if String.eqb path "out.txt" then Breaks 3 else Unopenable |}.

Definition argv_of_example : list string :=
  ["flow_analyzer.py"; "lookup.csv"; "flow.log"; "out.txt"].

(** ** The protocol table: properties *)

Lemma dict_get_found (d : list (string * string)) key default kv :
  find (fun kv => String.eqb (fst kv) key) d = Some kv ->
  dict_get d key default = snd kv.
Proof. unfold dict_get. now intros ->. Qed.

Lemma dict_get_missing (d : list (string * string)) key default :
  ~ In key (map fst d) -> dict_get d key default = default.
Proof.
  intros Hnot. unfold dict_get.
  destruct (find _ d) as [kv|] eqn:Hfind; [|reflexivity].
  apply find_some in Hfind as [Hin Heq].
  apply String.eqb_eq in Heq. exfalso. apply Hnot.
  rewrite <- Heq. now apply in_map.
Qed.

(** C5: resolution through the table.  The keys of the table are the
    decimal texts of the eighteen protocol numbers and its values are
    their lowercase names; a token that is a key resolves to the name of
    its entry (so "6" gives "tcp" and "17" gives "udp"); every other
    token, a number without an entry included, comes back lowercased. *)
Theorem resolveProtocol_table :
  map fst PROTOCOL_MAP
    = map pretty [0; 1; 2; 3; 4; 5; 6; 17; 41; 43; 44; 47; 50; 51; 58; 89; 103; 132]%N
  /\ map snd PROTOCOL_MAP
    = ["hopopt"; "icmp"; "igmp"; "ggp"; "ipv4"; "st"; "tcp"; "udp"; "ipv6";
       "ipv6-route"; "ipv6-frag"; "gre"; "esp"; "ah"; "ipv6-icmp"; "ospf";
       "pim"; "sctp"]
  /\ (forall number name,
        In (number, name) PROTOCOL_MAP ->
        resolveProtocol number = name /\ Py.lower name = name)
  /\ (forall token,
        ~ In token (map fst PROTOCOL_MAP) ->
        resolveProtocol token = Py.lower token)
  /\ resolveProtocol "6" = "tcp"
  /\ resolveProtocol "17" = "udp"
  /\ resolveProtocol "99" = "99"
  /\ resolveProtocol "TCP" = "tcp".
Proof.
  split; [reflexivity|]. split; [reflexivity|].
  split.
  - intros number name Hin. simpl in Hin.
    repeat (destruct Hin as [Hin|Hin];
            [injection Hin as <- <-; split; reflexivity|]).
    destruct Hin.
  - split; [|repeat split].
    intros token Hnot. unfold resolveProtocol. now apply dict_get_missing.
Qed.

Lemma resolveProtocol_table_witness :
  ~ In "icmpv6" (map fst PROTOCOL_MAP)
  /\ resolveProtocol "icmpv6" = Py.lower "icmpv6"
  /\ In ("6", "tcp") PROTOCOL_MAP
  /\ resolveProtocol "6" = "tcp".
Proof.
  assert (Hnot : ~ In "icmpv6" (map fst PROTOCOL_MAP)).
  { simpl. intros H. repeat (destruct H as [H|H]; [discriminate H|]). exact H. }
  assert (Hin : In ("6", "tcp") PROTOCOL_MAP).
  { simpl. do 6 right. left. reflexivity. }
  destruct resolveProtocol_table as (_ & _ & Hkey & Hother & _).
  split; [exact Hnot|]. split; [exact (Hother "icmpv6" Hnot)|].
  split; [exact Hin|]. exact (proj1 (Hkey "6" "tcp" Hin)).
Defined.

(** ** The rule index: properties *)

Section RuleIndexFacts.
Implicit Types (d : RuleIndex) (key : Z * string) (tag : string).

Lemma add_tag_lookup d key tag :
  add_tag key tag d !! key = Some (tags_of d key ∪ {[tag]}).
Proof.
  unfold add_tag, tags_of. destruct (d !! key) as [tags|] eqn:Hd.
  - rewrite lookup_alter_eq, Hd. reflexivity.
  - rewrite lookup_alter_eq, lookup_insert_eq. reflexivity.
Qed.

Lemma add_tag_lookup_ne d key key' tag :
  key ≠ key' -> add_tag key tag d !! key' = d !! key'.
Proof.
  intros Hne. unfold add_tag. rewrite lookup_alter_ne by exact Hne.
  destruct (d !! key); [reflexivity|]. now rewrite lookup_insert_ne.
Qed.

Lemma tags_of_add_tag d key tag :
  tags_of (add_tag key tag d) key = tags_of d key ∪ {[tag]}.
Proof. unfold tags_of at 1. now rewrite add_tag_lookup. Qed.

Lemma tags_of_add_tag_ne d key key' tag :
  key ≠ key' -> tags_of (add_tag key tag d) key' = tags_of d key'.
Proof. intros Hne. unfold tags_of. now rewrite add_tag_lookup_ne. Qed.

(** The two ways through the loop body. *)
Lemma lookup_line_valid d log line key tag :
  lookup_entry line = Some (key, tag) ->
  lookup_line (d, log) line = (add_tag key tag d, log).
Proof.
  unfold lookup_entry, lookup_line.
  destruct (length (lookup_row line) <? 3)%nat; [discriminate|].
  destruct (Py.int _) as [port|]; [|discriminate].
  simpl. now intros [= <- <-].
Qed.

Lemma lookup_line_skip d log line :
  lookup_entry line = None ->
  exists w, is_warning w = true /\ lookup_line (d, log) line = (d, log ++ [w]).
Proof.
  unfold lookup_entry, lookup_line.
  destruct (length (lookup_row line) <? 3)%nat.
  - intros _. now eexists.
  - destruct (Py.int _) as [port|]; [discriminate|].
    intros _. now eexists.
Qed.

Lemma lookup_line_index d log line :
  (lookup_line (d, log) line).1 = index_step d line.
Proof.
  unfold index_step. destruct (lookup_entry line) as [[key tag]|] eqn:He.
  - now rewrite (lookup_line_valid _ _ _ _ _ He).
  - destruct (lookup_line_skip d log line He) as (w & _ & ->). reflexivity.
Qed.

Lemma fold_lookup_line_index lines d log :
  (fold_left lookup_line lines (d, log)).1 = fold_left index_step lines d.
Proof.
  revert d log. induction lines as [|line lines IH]; intros d log; [reflexivity|].
  cbn [fold_left]. destruct (lookup_line (d, log) line) as [d' log'] eqn:Hstep.
  rewrite IH. f_equal.
  change d' with (d', log').1. rewrite <- Hstep. apply lookup_line_index.
Qed.

Lemma parse_lookup_lines_index hh lines d :
  (parse_lookup_lines hh lines d).1 = fold_left index_step (skip_header hh lines) d.
Proof. apply fold_lookup_line_index. Qed.

(** Tags only ever accumulate: the tags of a key after a run are those
    it had before, and the tags of the valid rows with that key. *)
Lemma tags_of_fold lines d key tag :
  tag ∈ tags_of (fold_left index_step lines d) key <->
  tag ∈ tags_of d key \/ exists line, In line lines /\ lookup_entry line = Some (key, tag).
Proof.
  revert d. induction lines as [|line lines IH]; intros d; simpl.
  - split; [now left|]. intros [H|(line & [] & _)]. exact H.
  - rewrite IH. unfold index_step at 1.
    destruct (lookup_entry line) as [[k t]|] eqn:He.
    + destruct (decide (k = key)) as [->|Hne].
      * rewrite tags_of_add_tag, elem_of_union, elem_of_singleton.
        split.
        -- intros [[H| ->]|(l & Hin & Hl)]; [now left| |right; eauto].
           right. exists line. split; [now left|exact He].
        -- intros [H|(l & [<-|Hin] & Hl)]; [left; now left| |right; eauto].
           rewrite He in Hl. injection Hl as <-. left. now right.
      * rewrite tags_of_add_tag_ne by exact Hne.
        split.
        -- intros [H|(l & Hin & Hl)]; [now left|right; eauto].
        -- intros [H|(l & [<-|Hin] & Hl)]; [now left| |right; eauto].
           rewrite He in Hl. injection Hl as Hk _. contradiction.
    + split.
      * intros [H|(l & Hin & Hl)]; [now left|right; eauto].
      * intros [H|(l & [<-|Hin] & Hl)]; [now left| |right; eauto].
        rewrite He in Hl. discriminate.
Qed.

End RuleIndexFacts.

(** One valid row adds its tag to the set of its key and leaves every
    other key alone; over the lines of a table, the set of a key holds
    exactly the tags of the valid rows with this key. *)
Lemma lookup_lines_union :
  (forall (d : RuleIndex) log line key tag,
      lookup_entry line = Some (key, tag) ->
      let d' := (lookup_line (d, log) line).1 in
      d' !! key = Some (tags_of d key ∪ {[tag]})
      /\ forall key', key ≠ key' -> d' !! key' = d !! key')
  /\ (forall has_headers lines key tag,
        tag ∈ tags_of (parse_lookup_lines has_headers lines ∅).1 key <->
        exists line, In line (skip_header has_headers lines)
                     /\ lookup_entry line = Some (key, tag))
  /\ (parse_lookup_lines false ["80,tcp,web" +:+ nl; "80,tcp,http" +:+ nl] ∅).1
     = {[ (80, "tcp") := {[ "web"; "http" ]} ]}.
Proof.
  split; [|split].
  - intros d log line key tag He. rewrite (lookup_line_valid _ _ _ _ _ He). simpl.
    split; [apply add_tag_lookup|]. intros key' Hne. now apply add_tag_lookup_ne.
  - intros hh lines key tag. rewrite parse_lookup_lines_index, tags_of_fold.
    split; [|now right]. intros [H|H]; [|exact H].
    unfold tags_of in H. rewrite lookup_empty in H. simpl in H.
    now apply not_elem_of_empty in H.
  - vm_compute. reflexivity.
Qed.

Lemma lookup_entry_case_folded line :
  lookup_entry line = folded_entry (case_folded_row line).
Proof.
  unfold lookup_entry, case_folded_row.
  destruct (lookup_row line) as [|port [|protocol rest]]; reflexivity.
Qed.

Lemma index_step_case_folded (d : RuleIndex) line1 line2 :
  case_folded_row line1 = case_folded_row line2 ->
  index_step d line1 = index_step d line2.
Proof.
  intros H. unfold index_step. now rewrite !lookup_entry_case_folded, H.
Qed.

Lemma fold_index_step_case_folded lines1 : forall lines2 (d : RuleIndex),
  map case_folded_row lines1 = map case_folded_row lines2 ->
  fold_left index_step lines1 d = fold_left index_step lines2 d.
Proof.
  induction lines1 as [|l1 lines1 IH]; intros [|l2 lines2] d H;
    try discriminate H; [reflexivity|].
  injection H as Hl Hrest. simpl.
  rewrite (index_step_case_folded d l1 l2 Hl). now apply IH.
Qed.

Lemma map_skip_header {B} (f : string -> B) hh lines :
  map f (skip_header hh lines) = (if hh then tail (map f lines) else map f lines).
Proof. destruct hh; [|reflexivity]. now destruct lines. Qed.

(** C4: the index does not depend on the letter case of the protocol
    field.  Two valid rows with the same port field and protocol fields
    equal up to case have the same key; two tables whose rows agree once
    the protocol field is lowercased build the same index; TCP, tcp and
    TcP all become tcp; and the table of the test suite, read with a
    header, gives exactly (80,tcp) with web, (443,tcp) with ssl and
    (22,tcp) with ssh. *)
Theorem rule_index_protocol_case :
  (forall line1 line2 key1 tag1 key2 tag2,
      lookup_entry line1 = Some (key1, tag1) ->
      lookup_entry line2 = Some (key2, tag2) ->
      nth 0 (lookup_row line1) "" = nth 0 (lookup_row line2) "" ->
      Py.lower (nth 1 (lookup_row line1) "") = Py.lower (nth 1 (lookup_row line2) "") ->
      key1 = key2)
  /\ (forall has_headers lines1 lines2 (d : RuleIndex),
        map case_folded_row lines1 = map case_folded_row lines2 ->
        (parse_lookup_lines has_headers lines1 d).1
        = (parse_lookup_lines has_headers lines2 d).1)
  /\ map Py.lower ["TCP"; "tcp"; "TcP"] = ["tcp"; "tcp"; "tcp"]
  /\ LogAnalyzer_init (Contents lookup_table_of_test) true
     = (Returns {| has_headers := true;
                   port_rule_dictionary :=
                     {[ (80, "tcp") := {[ "web" ]};
                        (443, "tcp") := {[ "ssl" ]};
                        (22, "tcp") := {[ "ssh" ]} ]} |}, []).
Proof.
  split; [|split; [|split]].
  - unfold lookup_entry. intros line1 line2 key1 tag1 key2 tag2 H1 H2 Hport Hproto.
    destruct (length (lookup_row line1) <? 3)%nat; [discriminate|].
    destruct (length (lookup_row line2) <? 3)%nat; [discriminate|].
    rewrite Hport, Hproto in H1.
    destruct (Py.int _) as [port|]; [|discriminate].
    simpl in H1, H2. congruence.
  - intros hh lines1 lines2 d H. rewrite !parse_lookup_lines_index.
    apply fold_index_step_case_folded. rewrite !map_skip_header. now rewrite H.
  - reflexivity.
  - vm_compute. reflexivity.
Qed.

Lemma rule_index_protocol_case_witness :
  map case_folded_row ["port,proto,tag"; "80,TCP,web"; "80,Tcp,http"]
  = map case_folded_row ["port,PROTO,tag"; "80, tcp ,web"; "80,tCP,http"]
  /\ (parse_lookup_lines true ["port,proto,tag"; "80,TCP,web"; "80,Tcp,http"] ∅).1
     = (parse_lookup_lines true ["port,PROTO,tag"; "80, tcp ,web"; "80,tCP,http"] ∅).1.
Proof.
  assert (H : map case_folded_row ["port,proto,tag"; "80,TCP,web"; "80,Tcp,http"]
              = map case_folded_row ["port,PROTO,tag"; "80, tcp ,web"; "80,tCP,http"])
    by reflexivity.
  split; [exact H|].
  exact (proj1 (proj2 rule_index_protocol_case) true _ _ ∅ H).
Defined.

Lemma no_empty_set_empty : no_empty_set ∅.
Proof. intros key tags H. now rewrite lookup_empty in H. Qed.

Lemma no_empty_set_add_tag d key tag :
  no_empty_set d -> no_empty_set (add_tag key tag d).
Proof.
  intros Hd k tags. destruct (decide (key = k)) as [<-|Hne].
  - rewrite add_tag_lookup. intros [= <-]. set_solver.
  - rewrite add_tag_lookup_ne by exact Hne. apply Hd.
Qed.

Lemma no_empty_set_fold lines : forall d,
  no_empty_set d -> no_empty_set (fold_left index_step lines d).
Proof.
  induction lines as [|line lines IH]; intros d Hd; [exact Hd|].
  simpl. apply IH. unfold index_step.
  destruct (lookup_entry line) as [[key tag]|]; [|exact Hd].
  now apply no_empty_set_add_tag.
Qed.





(** ** The classifier: properties *)

Section CountFacts.
Implicit Types (tc : TagCounts) (ppc : PortProtocolCounts)
               (key : Z * string) (tag : string) (tags : gset string).

Lemma tag_total_incr_tag tc tag tag' :
  tag_total (incr_tag tag tc) tag'
  = (tag_total tc tag' + if decide (tag' = tag) then 1 else 0)%nat.
Proof.
  unfold tag_total, incr_tag. destruct (decide (tag' = tag)) as [->|Hne].
  - rewrite lookup_insert_eq. simpl. lia.
  - rewrite lookup_insert_ne by congruence. lia.
Qed.

(** The loop [for tag in tags: tag_count[tag] += 1]. *)
Lemma tag_total_set_fold tc tags tag' :
  tag_total (set_fold incr_tag tc tags) tag'
  = (tag_total tc tag' + if decide (tag' ∈ tags) then 1 else 0)%nat.
Proof.
  revert tags.
  apply (set_fold_ind_L
           (fun r (X : gset string) =>
              tag_total r tag'
              = (tag_total tc tag' + if decide (tag' ∈ X) then 1 else 0)%nat)
           incr_tag tc).
  - rewrite decide_False; [lia|]. apply not_elem_of_empty.
  - intros x X r Hx IH. rewrite tag_total_incr_tag, IH.
    destruct (decide (tag' = x)) as [->|Hne].
    + rewrite (decide_False (P:=x ∈ X)) by exact Hx.
      rewrite decide_True; [lia|]. apply elem_of_union_l. now apply elem_of_singleton.
    + destruct (decide (tag' ∈ X)) as [Hin|Hin].
      * rewrite decide_True; [lia|]. now apply elem_of_union_r.
      * rewrite decide_False; [lia|].
        rewrite elem_of_union, elem_of_singleton. tauto.
Qed.

Lemma pair_total_incr_pair ppc key :
  pair_total (incr_pair key ppc) key = S (pair_total ppc key).
Proof.
  induction ppc as [|[k n] ppc IH]; cbn [incr_pair pair_total].
  - now rewrite decide_True.
  - destruct (decide (k = key)) as [->|Hne]; cbn [pair_total].
    + now rewrite decide_True.
    + now rewrite decide_False.
Qed.

Lemma pair_total_incr_pair_ne ppc key key' :
  key' ≠ key -> pair_total (incr_pair key ppc) key' = pair_total ppc key'.
Proof.
  intros Hne. induction ppc as [|[k n] ppc IH]; cbn [incr_pair pair_total].
  - rewrite decide_False; [reflexivity|congruence].
  - destruct (decide (k = key)) as [->|Hk]; cbn [pair_total].
    + rewrite !decide_False; [reflexivity|congruence..].
    + now rewrite IH.
Qed.

Lemma sum_incr_pair ppc key :
  sum_list (incr_pair key ppc).*2 = S (sum_list ppc.*2).
Proof.
  induction ppc as [|[k n] ppc IH]; cbn [incr_pair]; [reflexivity|].
  destruct (decide (k = key)); cbn [fmap list_fmap snd sum_list];
    [reflexivity|].
  fold (fmap (M:=list) (@snd (Z * string) nat)). rewrite IH. lia.
Qed.

(** A present key keeps its place, a new key goes last. *)
Lemma keys_incr_pair ppc key :
  (incr_pair key ppc).*1 = if decide (key ∈ ppc.*1) then ppc.*1 else ppc.*1 ++ [key].
Proof.
  induction ppc as [|[k n] ppc IH]; cbn [incr_pair].
  - rewrite decide_False; [reflexivity|]. apply not_elem_of_nil.
  - rewrite fmap_cons. cbn [fst].
    destruct (decide (k = key)) as [->|Hne].
    + rewrite decide_True; [reflexivity|]. apply elem_of_cons. now left.
    + rewrite fmap_cons, IH. cbn [fst].
      destruct (decide (key ∈ ppc.*1)) as [Hin|Hin].
      * rewrite decide_True; [reflexivity|]. apply elem_of_cons. now right.
      * rewrite decide_False; [reflexivity|].
        rewrite elem_of_cons. intros [->|H]; [now apply Hne|now apply Hin].
Qed.

Lemma NoDup_incr_pair ppc key : NoDup ppc.*1 -> NoDup (incr_pair key ppc).*1.
Proof.
  intros Hnd. rewrite keys_incr_pair. destruct (decide (key ∈ ppc.*1)); [exact Hnd|].
  apply NoDup_app. split; [exact Hnd|]. split; [|apply NoDup_singleton].
  intros x Hx Hx'. apply list_elem_of_singleton in Hx'. now subst.
Qed.

Lemma log_line_valid index c log line key :
  log_entry line = Some key ->
  log_line index (c, log) line
  = ({| tag_count := count_tags index key (tag_count c);
        port_protocol_count := incr_pair key (port_protocol_count c) |}, log).
Proof.
  unfold log_entry, log_line.
  destruct (length (Py.split (Py.strip line)) <? 14)%nat; [discriminate|].
  destruct (Py.int _) as [port|]; [|discriminate].
  simpl. now intros [= <-].
Qed.

Lemma log_line_skip index c log line :
  log_entry line = None ->
  exists w, is_warning w = true /\ log_line index (c, log) line = (c, log ++ [w]).
Proof.
  unfold log_entry, log_line.
  destruct (length (Py.split (Py.strip line)) <? 14)%nat.
  - intros _. now eexists.
  - destruct (Py.int _) as [port|]; [discriminate|].
    intros _. now eexists.
Qed.

Lemma log_entry_fields line port :
  (14 <= length (Py.split (Py.strip line)))%nat ->
  Py.int (nth 6 (Py.split (Py.strip line)) "") = Some port ->
  log_entry line = Some (port, resolveProtocol (nth 7 (Py.split (Py.strip line)) "")).
Proof.
  intros Hlen Hint. unfold log_entry.
  apply Nat.ltb_ge in Hlen. now rewrite Hlen, Hint.
Qed.

End CountFacts.

(** The loop body on a valid record: one more for its pair and for no
    other pair, one more for every tag of a rule set that is not empty,
    one more for some tag in every case, and no warning. *)
Lemma log_line_valid_record :
  forall (index : RuleIndex) (c : counts) log line port,
    (14 <= length (Py.split (Py.strip line)))%nat ->
    Py.int (nth 6 (Py.split (Py.strip line)) "") = Some port ->
    let key := (port, resolveProtocol (nth 7 (Py.split (Py.strip line)) "")) in
    let st' := log_line index (c, log) line in
    st'.2 = log
    /\ pair_total (port_protocol_count st'.1) key
       = S (pair_total (port_protocol_count c) key)
    /\ (forall key', key' ≠ key ->
          pair_total (port_protocol_count st'.1) key'
          = pair_total (port_protocol_count c) key')
    /\ sum_list (port_protocol_count st'.1).*2
       = S (sum_list (port_protocol_count c).*2)
    /\ (tags_of index key ≠ ∅ ->
        forall tag,
          tag_total (tag_count st'.1) tag
          = (tag_total (tag_count c) tag
             + if decide (tag ∈ tags_of index key) then 1 else 0)%nat)
    /\ (exists tag,
          tag_total (tag_count st'.1) tag = S (tag_total (tag_count c) tag)).
Proof.
  intros index c log line port Hlen Hint key st'. subst st'.
  rewrite (log_line_valid index c log line key (log_entry_fields _ _ Hlen Hint)).
  cbn [fst snd tag_count port_protocol_count].
  split; [reflexivity|]. split; [apply pair_total_incr_pair|].
  split; [intros key' Hne; now apply pair_total_incr_pair_ne|].
  split; [apply sum_incr_pair|].
  unfold count_tags. split.
  - intros Hne tag. rewrite decide_True by exact Hne. apply tag_total_set_fold.
  - destruct (decide (tags_of index key ≠ ∅)) as [Hne|He].
    + apply set_choose_L in Hne as [tag Htag]. exists tag.
      rewrite tag_total_set_fold, decide_True by exact Htag. lia.
    + exists "Untagged". rewrite tag_total_incr_tag, decide_True by reflexivity. lia.
Qed.

(** The loop body on a valid record whose pair has no rule: one more
    for "Untagged" and for no other tag, one more for the pair. *)
Lemma log_line_untagged_record :
  forall (index : RuleIndex) (c : counts) log line port,
    (14 <= length (Py.split (Py.strip line)))%nat ->
    Py.int (nth 6 (Py.split (Py.strip line)) "") = Some port ->
    let key := (port, resolveProtocol (nth 7 (Py.split (Py.strip line)) "")) in
    index !! key = None \/ index !! key = Some ∅ ->
    let st' := log_line index (c, log) line in
    tag_total (tag_count st'.1) "Untagged" = S (tag_total (tag_count c) "Untagged")
    /\ (forall tag, tag ≠ "Untagged" ->
          tag_total (tag_count st'.1) tag = tag_total (tag_count c) tag)
    /\ pair_total (port_protocol_count st'.1) key
       = S (pair_total (port_protocol_count c) key).
Proof.
  intros index c log line port Hlen Hint key Hnone st'. subst st'.
  rewrite (log_line_valid index c log line key (log_entry_fields _ _ Hlen Hint)).
  cbn [fst snd tag_count port_protocol_count].
  assert (He : tags_of index key = ∅).
  { unfold tags_of. now destruct Hnone as [-> | ->]. }
  unfold count_tags. rewrite decide_False by (intros H; now apply H).
  split; [|split].
  - rewrite tag_total_incr_tag, decide_True by reflexivity. lia.
  - intros tag Hne. rewrite tag_total_incr_tag, decide_False by exact Hne. lia.
  - apply pair_total_incr_pair.
Qed.

(** ** Skipped lines *)

Lemma lookup_malformed_entry line :
  lookup_malformed line -> lookup_entry line = None.
Proof.
  unfold lookup_entry. intros [Hlen|Hint].
  - apply Nat.ltb_lt in Hlen. now rewrite Hlen.
  - rewrite Hint. now destruct (_ <? _)%nat.
Qed.

Lemma log_malformed_entry line :
  log_malformed line -> log_entry line = None.
Proof.
  unfold log_entry. intros [Hlen|Hint].
  - apply Nat.ltb_lt in Hlen. now rewrite Hlen.
  - rewrite Hint. now destruct (_ <? _)%nat.
Qed.

Lemma log_line_counts index c log line :
  (log_line index (c, log) line).1 = count_step index c line.
Proof.
  unfold count_step. destruct (log_entry line) as [key|] eqn:He.
  - now rewrite (log_line_valid _ _ _ _ _ He).
  - destruct (log_line_skip index c log line He) as (w & _ & ->). reflexivity.
Qed.

Lemma fold_log_line_counts index lines c log :
  (fold_left (log_line index) lines (c, log)).1 = fold_left (count_step index) lines c.
Proof.
  revert c log. induction lines as [|line lines IH]; intros c log; [reflexivity|].
  cbn [fold_left]. destruct (log_line index (c, log) line) as [c' log'] eqn:Hstep.
  rewrite IH. f_equal.
  change c' with (c', log').1. rewrite <- Hstep. apply log_line_counts.
Qed.

(** What [log_parser] returns, in terms of the counts alone. *)
Lemma log_parser_lines_result self lines :
  (log_parser_lines self lines).1
  = if has_headers self then
      match lines with
      | [] => Exits 1
      | _ :: lines' =>
          let c := fold_left (count_step (port_rule_dictionary self)) lines' no_counts in
          Returns (tag_count c, port_protocol_count c)
      end
    else
      let c := fold_left (count_step (port_rule_dictionary self)) lines no_counts in
      Returns (tag_count c, port_protocol_count c).
Proof.
  unfold log_parser_lines, log_lines. destruct (has_headers self).
  - destruct lines as [|h lines]; [reflexivity|].
    rewrite <- fold_log_line_counts with (log := []).
    now destruct (fold_left _ lines _).
  - rewrite <- fold_log_line_counts with (log := []).
    now destruct (fold_left _ lines _).
Qed.

(** C9: a skipped line changes nothing but the log.  In either parser
    the loop body, on a malformed line, leaves the index (the two count
    mappings) as it was and logs one warning; and a run over lines that
    include a malformed line, other than in the place of the header,
    gives the index (the counts) of the run without that line. *)
Theorem malformed_line_is_inert :
  forall pre bad post,
    (lookup_malformed bad ->
     (forall (d : RuleIndex) log,
         exists w, is_warning w = true /\ lookup_line (d, log) bad = (d, log ++ [w]))
     /\ (forall has_headers (d : RuleIndex),
           (has_headers = true -> pre ≠ []) ->
           (parse_lookup_lines has_headers (pre ++ bad :: post) d).1
           = (parse_lookup_lines has_headers (pre ++ post) d).1))
    /\ (log_malformed bad ->
        (forall (index : RuleIndex) c log,
            exists w, is_warning w = true
                      /\ log_line index (c, log) bad = (c, log ++ [w]))
        /\ (forall self,
              (has_headers self = true -> pre ≠ []) ->
              (log_parser_lines self (pre ++ bad :: post)).1
              = (log_parser_lines self (pre ++ post)).1)).
Proof.
  intros pre bad post. split.
  - intros Hbad. apply lookup_malformed_entry in Hbad. split.
    + intros d log. now apply lookup_line_skip.
    + intros hh d Hpre. rewrite !parse_lookup_lines_index.
      assert (Hskip : forall l (d0 : RuleIndex),
                 fold_left index_step (l ++ bad :: post) d0
                 = fold_left index_step (l ++ post) d0).
      { intros l d0. rewrite !fold_left_app. cbn [fold_left].
        unfold index_step at 2. now rewrite Hbad. }
      destruct hh; [|apply Hskip].
      destruct pre as [|h pre]; [now destruct Hpre|]. apply Hskip.
  - intros Hbad. apply log_malformed_entry in Hbad. split.
    + intros index c log. now apply log_line_skip.
    + intros self Hpre. rewrite !log_parser_lines_result.
      assert (Hskip : forall l c0,
                 fold_left (count_step (port_rule_dictionary self)) (l ++ bad :: post) c0
                 = fold_left (count_step (port_rule_dictionary self)) (l ++ post) c0).
      { intros l c0. rewrite !fold_left_app. cbn [fold_left].
        unfold count_step at 2. now rewrite Hbad. }
      destruct (has_headers self); [|now rewrite Hskip].
      destruct pre as [|h pre]; [now destruct Hpre|].
      cbn [app]. now rewrite Hskip.
Qed.

Lemma malformed_line_is_inert_witness :
  lookup_malformed "80,tcp"
  /\ (parse_lookup_lines true (["p,q,t"; "22,tcp,ssh"] ++ "80,tcp" :: ["25,tcp,smtp"]) ∅).1
     = (parse_lookup_lines true (["p,q,t"; "22,tcp,ssh"] ++ ["25,tcp,smtp"]) ∅).1
  /\ log_malformed "1 2 3 4 5 6 port 6 9 10 11 12 13 14"
  /\ (log_parser_lines {| has_headers := false; port_rule_dictionary := ∅ |}
        ([record_of_test] ++ "1 2 3 4 5 6 port 6 9 10 11 12 13 14"
                          :: [untagged_record_of_test])).1
     = (log_parser_lines {| has_headers := false; port_rule_dictionary := ∅ |}
          ([record_of_test] ++ [untagged_record_of_test])).1.
Proof.
  assert (H1 : lookup_malformed "80,tcp") by (left; vm_compute; lia).
  assert (H2 : log_malformed "1 2 3 4 5 6 port 6 9 10 11 12 13 14")
    by (right; reflexivity).
  split; [exact H1|]. split.
  - refine (proj2 (proj1 (malformed_line_is_inert
                            ["p,q,t"; "22,tcp,ssh"] "80,tcp" ["25,tcp,smtp"]) H1)
                  true ∅ _).
    intros _. discriminate.
  - split; [exact H2|].
    refine (proj2 (proj2 (malformed_line_is_inert
                            [record_of_test] "1 2 3 4 5 6 port 6 9 10 11 12 13 14"
                            [untagged_record_of_test]) H2)
                  {| has_headers := false; port_rule_dictionary := ∅ |} _).
    intros H. discriminate H.
Defined.

(** ** No degenerate entries *)

Lemma positive_tags_incr_tag tag tc :
  positive_tags tc -> positive_tags (incr_tag tag tc).
Proof.
  intros Htc t n. unfold incr_tag. destruct (decide (tag = t)) as [<-|Hne].
  - rewrite lookup_insert_eq. intros [= <-]. lia.
  - rewrite lookup_insert_ne by exact Hne. apply Htc.
Qed.

Lemma positive_tags_set_fold (tags : gset string) tc :
  positive_tags tc -> positive_tags (set_fold incr_tag tc tags).
Proof.
  intros Htc. revert tags.
  apply (set_fold_ind_L (fun r (_ : gset string) => positive_tags r) incr_tag tc).
  - exact Htc.
  - intros x X r _ Hr. now apply positive_tags_incr_tag.
Qed.

Lemma positive_pairs_incr_pair key ppc :
  positive_pairs ppc -> positive_pairs (incr_pair key ppc).
Proof.
  unfold positive_pairs. induction ppc as [|[k m] ppc IH]; intros Hp k' n; cbn [incr_pair].
  - intros [[= _ <-]|[]]. lia.
  - destruct (decide (k = key)) as [->|Hne].
    + intros [[= <- <-]|Hin].
      * specialize (Hp key m (or_introl eq_refl)). lia.
      * apply (Hp k' n). now right.
    + intros [[= <- <-]|Hin].
      * apply (Hp k m). now left.
      * refine (IH _ k' n Hin). intros k0 n0 H0. apply (Hp k0 n0). now right.
Qed.

Lemma positive_count_step index c line :
  positive_tags (tag_count c) -> positive_pairs (port_protocol_count c) ->
  positive_tags (tag_count (count_step index c line))
  /\ positive_pairs (port_protocol_count (count_step index c line)).
Proof.
  intros Ht Hp. unfold count_step. destruct (log_entry line) as [key|]; [|now split].
  cbn [tag_count port_protocol_count]. split.
  - unfold count_tags. destruct (decide _).
    + now apply positive_tags_set_fold.
    + now apply positive_tags_incr_tag.
  - now apply positive_pairs_incr_pair.
Qed.

Lemma positive_fold_count_step index lines : forall c,
  positive_tags (tag_count c) -> positive_pairs (port_protocol_count c) ->
  positive_tags (tag_count (fold_left (count_step index) lines c))
  /\ positive_pairs (port_protocol_count (fold_left (count_step index) lines c)).
Proof.
  induction lines as [|line lines IH]; intros c Ht Hp; [now split|].
  cbn [fold_left]. destruct (positive_count_step index c line Ht Hp) as [Ht' Hp'].
  now apply IH.
Qed.

Lemma positive_no_counts :
  positive_tags (tag_count no_counts) /\ positive_pairs (port_protocol_count no_counts).
Proof.
  split.
  - intros tag n H. cbn [tag_count no_counts] in H. now rewrite lookup_empty in H.
  - intros key n [].
Qed.

(** C10: no degenerate entries.  In the index of an analyzer that was
    constructed, every key that is present has a set with at least one
    tag; in the two mappings that [log_parser] returns, whatever the
    index, every count that is present is at least one. *)
Theorem no_degenerate_entries :
  (forall lookup_table_file has_headers self log,
      LogAnalyzer_init lookup_table_file has_headers = (Returns self, log) ->
      forall key tags, port_rule_dictionary self !! key = Some tags -> tags ≠ ∅)
  /\ (forall self log_file tc ppc log,
        log_parser self log_file = (Returns (tc, ppc), log) ->
        (forall tag n, tc !! tag = Some n -> (1 <= n)%nat)
        /\ (forall key n, In (key, n) ppc -> (1 <= n)%nat)).
Proof.
  split.
  - intros [| |text] hh self log; try discriminate.
    unfold LogAnalyzer_init, parse_lookup_table.
    cbn [has_headers port_rule_dictionary].
    pose proof (parse_lookup_lines_index hh (Py.readlines text) ∅) as Hidx.
    destruct (parse_lookup_lines hh (Py.readlines text) ∅) as [d log'].
    intros [= <- _]. cbn [port_rule_dictionary]. cbn [fst] in Hidx. rewrite Hidx.
    apply no_empty_set_fold, no_empty_set_empty.
  - intros self [| |text] tc ppc log; try discriminate.
    unfold log_parser. intros Hrun.
    pose proof (log_parser_lines_result self (Py.readlines text)) as Hres.
    rewrite Hrun in Hres. cbn [fst] in Hres.
    destruct positive_no_counts as [Ht Hp].
    destruct (has_headers self).
    + destruct (Py.readlines text) as [|h lines]; [discriminate|].
      injection Hres as -> ->.
      now apply positive_fold_count_step.
    + injection Hres as -> ->. now apply positive_fold_count_step.
Qed.

Lemma no_degenerate_entries_witness :
  LogAnalyzer_init (Contents lookup_table_of_test) true
  = (Returns {| has_headers := true;
                port_rule_dictionary :=
                  {[ (80, "tcp") := {[ "web" ]};
                     (443, "tcp") := {[ "ssl" ]};
                     (22, "tcp") := {[ "ssh" ]} ]} |}, [])
  /\ ({[ "web" ]} : gset string) ≠ ∅.
Proof.
  assert (Hinit : LogAnalyzer_init (Contents lookup_table_of_test) true
                  = (Returns {| has_headers := true;
                                port_rule_dictionary :=
                                  {[ (80, "tcp") := {[ "web" ]};
                                     (443, "tcp") := {[ "ssl" ]};
                                     (22, "tcp") := {[ "ssh" ]} ]} |}, []))
    by (vm_compute; reflexivity).
  split; [exact Hinit|].
  refine (proj1 no_degenerate_entries _ _ _ _ Hinit (80, "tcp") {[ "web" ]} _).
  vm_compute. reflexivity.
Defined.

(** ** The empty flow log *)

(** Every flow log that can be read and has a line to drop, or is read
    without header, is classified. *)
Lemma log_parser_returns self text :
  has_headers self = false \/ Py.readlines text ≠ [] ->
  exists tc ppc log, log_parser self (Contents text) = (Returns (tc, ppc), log).
Proof.
  intros H. unfold log_parser, log_parser_lines.
  destruct (has_headers self).
  - destruct H as [H|H]; [discriminate|].
    destruct (Py.readlines text) as [|h lines]; [now destruct H|].
    destruct (log_lines _ lines) as [c log]. now eexists _, _, _.
  - destruct (log_lines _ _) as [c log]. now eexists _, _, _.
Qed.

(** C7: on a flow log that opens and reads but has no line at all,
    [log_parser] with headers ends the process with status 1, whatever
    the index; on the same empty file the lookup-table parser returns
    (an empty index), and so does [log_parser] without headers. *)
Theorem log_parser_empty_file :
  forall d : RuleIndex,
    log_parser {| has_headers := true; port_rule_dictionary := d |} (Contents "")
    = (Exits 1, [Error_processing_file])
    /\ log_parser {| has_headers := false; port_rule_dictionary := d |} (Contents "")
       = (Returns (∅, []), [])
    /\ LogAnalyzer_init (Contents "") true
       = (Returns {| has_headers := true; port_rule_dictionary := ∅ |}, []).
Proof. intros d. repeat split. Qed.

(** ** The report: properties *)

Section SortedFacts.
Context {A : Type} (lt : A -> A -> bool).

Lemma insert_Permutation x l : Permutation (Py.insert lt x l) (x :: l).
Proof.
  induction l as [|y l IH]; cbn [Py.insert]; [reflexivity|].
  destruct (lt y x); [|reflexivity].
  rewrite IH. apply perm_swap.
Qed.

Lemma sorted_Permutation l : Permutation (Py.sorted lt l) l.
Proof.
  induction l as [|x l IH]; [reflexivity|].
  cbn [Py.sorted foldr]. fold (Py.sorted lt l).
  rewrite insert_Permutation. now apply perm_skip.
Qed.



Hypothesis lt_asym : forall x y, lt x y = true -> lt y x = false.



End SortedFacts.










(** The inner loop of [write_results] gives the protocol back. *)
Lemma protocol_name_id protocol : protocol_name protocol = protocol.
Proof.
  unfold protocol_name.
  destruct (find _ PROTOCOL_MAP) as [kv|] eqn:Hfind; [|reflexivity].
  apply find_some in Hfind as [_ Heq]. now apply String.eqb_eq in Heq.
Qed.

Lemma sorted_counts_id ppc : sorted_counts ppc = ppc.
Proof.
  unfold sorted_counts. induction ppc as [|[[port protocol] count] ppc IH];
    [reflexivity|].
  cbn [map]. now rewrite protocol_name_id, IH.
Qed.




(** A report with two pairs on port 80, met in the order udp, tcp. *)
Example report_of_three_pairs :
  report {[ "web" := 3%nat; "Untagged" := 1%nat; "http" := 3%nat ]}
         [((80, "udp"), 1%nat); ((22, "tcp"), 1%nat); ((80, "tcp"), 3%nat)]
  = ["Tag Counts:" +:+ nl; "Tag,Count" +:+ nl;
     "Untagged,1" +:+ nl; "http,3" +:+ nl; "web,3" +:+ nl;
     nl; "Port/Protocol Combination Counts:" +:+ nl; "Port,Protocol,Count" +:+ nl;
     "22,tcp,1" +:+ nl; "80,udp,1" +:+ nl; "80,tcp,3" +:+ nl].
Proof. vm_compute. reflexivity. Qed.

(** ** The order of the pairs, and the test suite *)

(** The pairs of the returned mapping are distinct and stand in the
    order in which the valid records first showed them. *)
Lemma keys_fold_count_step index lines : forall c,
  (port_protocol_count (fold_left (count_step index) lines c)).*1
  = fold_left (fun seen key => if decide (key ∈ seen) then seen else seen ++ [key])
              (omap log_entry lines) (port_protocol_count c).*1.
Proof.
  induction lines as [|line lines IH]; intros c; [reflexivity|].
  cbn [fold_left omap list_omap]. rewrite IH. unfold count_step.
  destruct (log_entry line) as [key|]; [|reflexivity].
  cbn [port_protocol_count fold_left]. now rewrite keys_incr_pair.
Qed.

Lemma port_protocol_count_order index lines :
  (port_protocol_count (fold_left (count_step index) lines no_counts)).*1
  = first_seen (omap log_entry lines).
Proof. apply keys_fold_count_step. Qed.

Lemma NoDup_fold_count_step index lines : forall c,
  NoDup (port_protocol_count c).*1 ->
  NoDup (port_protocol_count (fold_left (count_step index) lines c)).*1.
Proof.
  induction lines as [|line lines IH]; intros c Hc; [exact Hc|].
  cbn [fold_left]. apply IH. unfold count_step.
  destruct (log_entry line) as [key|]; [|exact Hc].
  cbn [port_protocol_count]. now apply NoDup_incr_pair.
Qed.

Lemma log_parser_NoDup self log_file tc ppc log :
  log_parser self log_file = (Returns (tc, ppc), log) -> NoDup ppc.*1.
Proof.
  destruct log_file as [| |text]; try discriminate.
  unfold log_parser. intros Hrun.
  pose proof (log_parser_lines_result self (Py.readlines text)) as Hres.
  rewrite Hrun in Hres. cbn [fst] in Hres.
  destruct (has_headers self).
  - destruct (Py.readlines text) as [|h lines]; [discriminate|].
    injection Hres as -> ->. apply NoDup_fold_count_step. constructor.
  - injection Hres as -> ->. apply NoDup_fold_count_step. constructor.
Qed.

(** Three cases of the test suite, run through the model. *)
Example test_protocol_number_mapping :
  forall self log,
    LogAnalyzer_init
      (Contents ("dstport,protocol,tag" +:+ nl +:+ "80,tcp,web" +:+ nl +:+ "53,17,dns"))
      true = (Returns self, log) ->
    log_parser self
      (Contents ("version account_id interface_id srcaddr dstaddr srcport 80 6 packets bytes start end action log_status"
                 +:+ nl +:+ record_of_test))
    = (Returns ({[ "web" := 1%nat ]}, [((80, "tcp"), 1%nat)]), []).
Proof. intros self log [= <- _]. vm_compute. reflexivity. Qed.

Example test_untagged_ports :
  forall self log,
    LogAnalyzer_init (Contents ("dstport,protocol,tag" +:+ nl +:+ "80,tcp,web")) true
    = (Returns self, log) ->
    log_parser self
      (Contents ("version account_id interface_id srcaddr dstaddr srcport 8080 17 packets bytes start end action log_status"
                 +:+ nl +:+ untagged_record_of_test))
    = (Returns ({[ "Untagged" := 1%nat ]}, [((8080, "udp"), 1%nat)]), []).
Proof. intros self log [= <- _]. vm_compute. reflexivity. Qed.

Example test_multiple_tags_same_port_protocol :
  forall self log,
    LogAnalyzer_init
      (Contents ("dstport,protocol,tag" +:+ nl +:+ "80,tcp,web" +:+ nl +:+ "80,tcp,http"))
      true = (Returns self, log) ->
    log_parser self
      (Contents ("version account_id interface_id srcaddr dstaddr srcport 80 6 packets bytes start end action log_status"
                 +:+ nl +:+ record_of_test))
    = (Returns ({[ "web" := 1%nat; "http" := 1%nat ]}, [((80, "tcp"), 1%nat)]), []).
Proof. intros self log [= <- _]. vm_compute. reflexivity. Qed.

(** ** Whole runs of the two parsers *)

Lemma lookup_line_step (d : RuleIndex) log line :
  lookup_line (d, log) line
  = (index_step d line, log ++ option_list (lookup_warning line)).
Proof.
  unfold lookup_line, index_step, lookup_entry, lookup_warning.
  destruct (length (lookup_row line) <? 3)%nat; [reflexivity|].
  destruct (Py.int _) as [port|]; cbn [mbind option_bind option_list];
    [|reflexivity].
  now rewrite app_nil_r.
Qed.

Lemma fold_lookup_line_log lines : forall (d : RuleIndex) log,
  (fold_left lookup_line lines (d, log)).2 = log ++ omap lookup_warning lines.
Proof.
  induction lines as [|line lines IH]; intros d log; cbn [fold_left].
  - cbn. now rewrite app_nil_r.
  - rewrite lookup_line_step, IH, <- app_assoc. f_equal.
    cbn [omap list_omap]. now destruct (lookup_warning line).
Qed.

Lemma log_line_step index c log line :
  log_line index (c, log) line
  = (count_step index c line, log ++ option_list (log_warning line)).
Proof.
  unfold log_line, count_step, log_entry, log_warning.
  destruct (length (Py.split (Py.strip line)) <? 14)%nat; [reflexivity|].
  destruct (Py.int _) as [port|]; cbn [mbind option_bind option_list];
    [|reflexivity].
  now rewrite app_nil_r.
Qed.

Lemma fold_log_line_log index lines : forall c log,
  (fold_left (log_line index) lines (c, log)).2 = log ++ omap log_warning lines.
Proof.
  induction lines as [|line lines IH]; intros c log; cbn [fold_left].
  - cbn. now rewrite app_nil_r.
  - rewrite log_line_step, IH, <- app_assoc. f_equal.
    cbn [omap list_omap]. now destruct (log_warning line).
Qed.

(** A line is either a valid row or the cause of one warning. *)
Lemma lookup_entry_or_warning lines :
  (length (omap lookup_entry lines) + length (omap lookup_warning lines))%nat
  = length lines.
Proof.
  induction lines as [|line lines IH]; [reflexivity|].
  cbn [omap list_omap]. unfold lookup_entry at 1, lookup_warning at 1.
  destruct (length (lookup_row line) <? 3)%nat; cbn [length];
    [fold (omap lookup_entry lines) (omap lookup_warning lines); lia|].
  destruct (Py.int _); cbn [mbind option_bind length];
    fold (omap lookup_entry lines) (omap lookup_warning lines); lia.
Qed.

Lemma log_entry_or_warning lines :
  (length (omap log_entry lines) + length (omap log_warning lines))%nat
  = length lines.
Proof.
  induction lines as [|line lines IH]; [reflexivity|].
  cbn [omap list_omap]. unfold log_entry at 1, log_warning at 1.
  destruct (length (Py.split (Py.strip line)) <? 14)%nat; cbn [length];
    [fold (omap log_entry lines) (omap log_warning lines); lia|].
  destruct (Py.int _); cbn [mbind option_bind length];
    fold (omap log_entry lines) (omap log_warning lines); lia.
Qed.

Lemma lookup_warning_is_warning line w :
  lookup_warning line = Some w -> is_warning w = true.
Proof.
  unfold lookup_warning. destruct (_ <? _)%nat; [now intros [= <-]|].
  destruct (Py.int _); [discriminate|now intros [= <-]].
Qed.

Lemma log_warning_is_warning line w :
  log_warning line = Some w -> is_warning w = true.
Proof.
  unfold log_warning. destruct (_ <? _)%nat; [now intros [= <-]|].
  destruct (Py.int _); [discriminate|now intros [= <-]].
Qed.

(** What [log_parser] returns on a file it classifies. *)
Lemma log_parser_contents self text tc ppc log :
  log_parser self (Contents text) = (Returns (tc, ppc), log) ->
  let c := fold_left (count_step (port_rule_dictionary self))
                     (skip_header (has_headers self) (Py.readlines text))
                     no_counts in
  tc = tag_count c /\ ppc = port_protocol_count c
  /\ log = omap log_warning (skip_header (has_headers self) (Py.readlines text)).
Proof.
  unfold log_parser. intros Hrun.
  pose proof (log_parser_lines_result self (Py.readlines text)) as Hres.
  rewrite Hrun in Hres. cbn [fst] in Hres.
  assert (Hlog : forall lines,
             (let '(c, log) := log_lines (port_rule_dictionary self) lines in
              (Returns (tag_count c, port_protocol_count c), log)).2
             = omap log_warning lines).
  { intros lines. unfold log_lines.
    pose proof (fold_log_line_log (port_rule_dictionary self) lines no_counts [])
      as H.
    destruct (fold_left _ lines _) as [c0 log0]. exact H. }
  unfold log_parser_lines in Hrun. unfold skip_header.
  destruct (has_headers self).
  - destruct (Py.readlines text) as [|h lines]; [discriminate|].
    injection Hres as -> ->. cbn [tail]. repeat split.
    rewrite <- (Hlog lines), Hrun. reflexivity.
  - injection Hres as -> ->. repeat split.
    rewrite <- (Hlog (Py.readlines text)), Hrun. reflexivity.
Qed.

(** X1: building the index from a file that reads always returns.  The
    analyzer keeps the header flag; the log holds, in the order of the
    file, one warning for each data line that is not a valid row and
    nothing else, so valid rows and warnings together count the data
    lines. *)
Theorem lookup_table_run :
  forall text hh,
    let data := skip_header hh (Py.readlines text) in
    exists d : RuleIndex,
      LogAnalyzer_init (Contents text) hh
      = (Returns {| has_headers := hh; port_rule_dictionary := d |},
         omap lookup_warning data)
      /\ (length (entries hh (Py.readlines text))
          + length (omap lookup_warning data))%nat = length data
      /\ Forall (fun w => is_warning w = true) (omap lookup_warning data).
Proof.
  intros text hh data.
  exists (parse_lookup_lines hh (Py.readlines text) ∅).1.
  split; [|split].
  - unfold LogAnalyzer_init, parse_lookup_table.
    cbn [has_headers port_rule_dictionary].
    pose proof (fold_lookup_line_log data ∅ []) as Hlog.
    unfold parse_lookup_lines. fold data.
    destruct (fold_left lookup_line data (∅, [])) as [d log].
    cbn [fst snd] in *. now rewrite Hlog.
  - apply lookup_entry_or_warning.
  - apply Forall_forall. intros w Hw.
    apply list_elem_of_omap in Hw as (line & _ & Hline).
    exact (lookup_warning_is_warning line w Hline).
Qed.

Lemma sum_fold_count_step index lines : forall c,
  sum_list (port_protocol_count (fold_left (count_step index) lines c)).*2
  = (sum_list (port_protocol_count c).*2 + length (omap log_entry lines))%nat.
Proof.
  induction lines as [|line lines IH]; intros c; cbn [fold_left omap list_omap].
  - cbn. lia.
  - rewrite IH. unfold count_step.
    destruct (log_entry line) as [key|]; [|reflexivity].
    cbn [port_protocol_count length]. rewrite sum_incr_pair. lia.
Qed.

(** X2: classifying a flow log that reads, and has a first line to drop
    when a header is expected, always returns.  The log holds, in the
    order of the file, one warning for each data line that is not a
    valid record and nothing else; the counts of all pairs add up to the
    number of valid records; valid records and warnings together count
    the data lines. *)
Theorem flow_log_run :
  forall self text,
    has_headers self = false \/ Py.readlines text ≠ [] ->
    let data := skip_header (has_headers self) (Py.readlines text) in
    exists tc ppc,
      log_parser self (Contents text) = (Returns (tc, ppc), omap log_warning data)
      /\ sum_list ppc.*2 = length (records (has_headers self) (Py.readlines text))
      /\ (length (records (has_headers self) (Py.readlines text))
          + length (omap log_warning data))%nat = length data
      /\ Forall (fun w => is_warning w = true) (omap log_warning data).
Proof.
  intros self text Hok data.
  destruct (log_parser_returns self text Hok) as (tc & ppc & log & Hrun).
  destruct (log_parser_contents self text tc ppc log Hrun) as (Htc & Hppc & Hlog).
  exists tc, ppc. split; [now rewrite Hrun, Hlog|].
  split; [|split].
  - rewrite Hppc, sum_fold_count_step. reflexivity.
  - apply log_entry_or_warning.
  - apply Forall_forall. intros w Hw.
    apply list_elem_of_omap in Hw as (line & _ & Hline).
    exact (log_warning_is_warning line w Hline).
Qed.

Lemma flow_log_run_witness :
  (has_headers analyzer_of_example = false \/ Py.readlines log_of_example ≠ [])
  /\ exists tc ppc,
      log_parser analyzer_of_example (Contents log_of_example)
      = (Returns (tc, ppc), [Skipping_malformed_line "too short"])
      /\ sum_list ppc.*2 = 3%nat.
Proof.
  assert (Hok : has_headers analyzer_of_example = false
                \/ Py.readlines log_of_example ≠ []) by (left; reflexivity).
  split; [exact Hok|].
  destruct (flow_log_run analyzer_of_example log_of_example Hok)
    as (tc & ppc & Hrun & Hsum & _).
  exists tc, ppc. split; [exact Hrun|exact Hsum].
Defined.

Lemma pair_total_fold index lines key : forall c,
  pair_total (port_protocol_count (fold_left (count_step index) lines c)) key
  = (pair_total (port_protocol_count c) key
     + occurrences key (omap log_entry lines))%nat.
Proof.
  unfold occurrences.
  induction lines as [|line lines IH]; intros c; cbn [fold_left omap list_omap].
  - cbn. lia.
  - rewrite IH. unfold count_step.
    destruct (log_entry line) as [k|]; [|reflexivity].
    cbn [port_protocol_count List.filter].
    destruct (decide (k = key)) as [->|Hne].
    + rewrite pair_total_incr_pair, bool_decide_eq_true_2 by reflexivity.
      cbn [length]. lia.
    + rewrite pair_total_incr_pair_ne by congruence.
      rewrite bool_decide_eq_false_2 by exact Hne. reflexivity.
Qed.

(** X3: in the mapping [log_parser] returns, the count of a pair is the
    number of valid records of the file with that pair. *)
Theorem pair_count_is_number_of_records :
  forall self text tc ppc log,
    log_parser self (Contents text) = (Returns (tc, ppc), log) ->
    forall key,
      pair_total ppc key
      = occurrences key (records (has_headers self) (Py.readlines text)).
Proof.
  intros self text tc ppc log Hrun key.
  destruct (log_parser_contents self text tc ppc log Hrun) as (_ & -> & _).
  now rewrite pair_total_fold.
Qed.

Lemma pair_count_is_number_of_records_witness :
  log_parser analyzer_of_example (Contents log_of_example)
  = (Returns (tag_count_of_example, port_protocol_count_of_example),
     [Skipping_malformed_line "too short"])
  /\ pair_total port_protocol_count_of_example (80, "tcp") = 2%nat.
Proof.
  assert (Hrun : log_parser analyzer_of_example (Contents log_of_example)
                 = (Returns (tag_count_of_example, port_protocol_count_of_example),
                    [Skipping_malformed_line "too short"]))
    by (vm_compute; reflexivity).
  split; [exact Hrun|].
  exact (pair_count_is_number_of_records _ _ _ _ _ Hrun (80, "tcp")).
Defined.

Lemma tag_total_count_tags index key tc tag :
  tag_total (count_tags index key tc) tag
  = (tag_total tc tag + tag_hits index tag key)%nat.
Proof.
  unfold count_tags, tag_hits. destruct (decide (tags_of index key ≠ ∅)).
  - apply tag_total_set_fold.
  - apply tag_total_incr_tag.
Qed.

Lemma tag_total_fold index lines tag : forall c,
  tag_total (tag_count (fold_left (count_step index) lines c)) tag
  = (tag_total (tag_count c) tag
     + sum_list (tag_hits index tag <$> omap log_entry lines))%nat.
Proof.
  induction lines as [|line lines IH]; intros c; cbn [fold_left omap list_omap].
  - cbn. lia.
  - rewrite IH. unfold count_step.
    destruct (log_entry line) as [k|]; [|reflexivity].
    cbn [tag_count]. rewrite tag_total_count_tags, fmap_cons. cbn. lia.
Qed.

Lemma tag_totals_of_run self text tc ppc log :
  log_parser self (Contents text) = (Returns (tc, ppc), log) ->
  forall tag,
    tag_total tc tag
    = sum_list (tag_hits (port_rule_dictionary self) tag
                  <$> records (has_headers self) (Py.readlines text)).
Proof.
  intros Hrun tag.
  destruct (log_parser_contents self text tc ppc log Hrun) as (-> & _ & _).
  rewrite tag_total_fold. unfold tag_total, no_counts. cbn [tag_count].
  now rewrite lookup_empty.
Qed.

(** X4: in the mapping [log_parser] returns, the count of a tag is the
    number of valid records whose pair has that tag in its rule set,
    and for "Untagged" also the number of valid records whose pair has
    no rule. *)
Theorem tag_count_is_number_of_hits :
  forall self text tc ppc log,
    log_parser self (Contents text) = (Returns (tc, ppc), log) ->
    forall tag,
      tag_total tc tag
      = sum_list (tag_hits (port_rule_dictionary self) tag
                    <$> records (has_headers self) (Py.readlines text)).
Proof.
  intros self text tc ppc log Hrun tag.
  destruct (log_parser_contents self text tc ppc log Hrun) as (-> & _ & _).
  rewrite tag_total_fold. unfold tag_total, no_counts. cbn [tag_count].
  now rewrite lookup_empty.
Qed.

Lemma tag_count_is_number_of_hits_witness :
  log_parser analyzer_of_example (Contents log_of_example)
  = (Returns (tag_count_of_example, port_protocol_count_of_example),
     [Skipping_malformed_line "too short"])
  /\ tag_total tag_count_of_example "http" = 2%nat.
Proof.
  assert (Hrun : log_parser analyzer_of_example (Contents log_of_example)
                 = (Returns (tag_count_of_example, port_protocol_count_of_example),
                    [Skipping_malformed_line "too short"]))
    by (vm_compute; reflexivity).
  split; [exact Hrun|].
  exact (tag_count_is_number_of_hits _ _ _ _ _ Hrun "http").
Defined.

Lemma elem_of_first_seen_fold (keys : list (Z * string)) key : forall seen,
  key ∈ fold_left (fun seen key => if decide (key ∈ seen) then seen else seen ++ [key])
                  keys seen
  <-> key ∈ seen \/ key ∈ keys.
Proof.
  induction keys as [|k keys IH]; intros seen; cbn [fold_left].
  - rewrite elem_of_nil. tauto.
  - rewrite IH, elem_of_cons. destruct (decide (k ∈ seen)) as [Hin|Hin].
    + split; [tauto|]. intros [H|[->|H]]; tauto.
    + rewrite elem_of_app, list_elem_of_singleton. tauto.
Qed.

Lemma pairs_are_of_records self text tc ppc log :
  log_parser self (Contents text) = (Returns (tc, ppc), log) ->
  forall key,
    key ∈ ppc.*1 -> key ∈ records (has_headers self) (Py.readlines text).
Proof.
  intros Hrun key.
  destruct (log_parser_contents self text tc ppc log Hrun) as (_ & -> & _).
  rewrite port_protocol_count_order. unfold first_seen.
  rewrite elem_of_first_seen_fold, elem_of_nil. unfold records. tauto.
Qed.

(** X5: the pairs of the mapping [log_parser] returns are those of the
    valid records, each once, in the order in which the file first
    shows them. *)
Theorem pairs_in_order_of_first_record :
  forall self text tc ppc log,
    log_parser self (Contents text) = (Returns (tc, ppc), log) ->
    ppc.*1 = first_seen (records (has_headers self) (Py.readlines text))
    /\ NoDup ppc.*1
    /\ forall key,
        key ∈ ppc.*1 <-> key ∈ records (has_headers self) (Py.readlines text).
Proof.
  intros self text tc ppc log Hrun.
  pose proof (log_parser_NoDup _ _ _ _ _ Hrun) as Hnd.
  destruct (log_parser_contents self text tc ppc log Hrun) as (_ & -> & _).
  rewrite port_protocol_count_order. split; [reflexivity|]. split.
  - now rewrite port_protocol_count_order in Hnd.
  - intros key. unfold first_seen. rewrite elem_of_first_seen_fold, elem_of_nil.
    unfold records. tauto.
Qed.

Lemma pairs_in_order_of_first_record_witness :
  log_parser analyzer_of_example (Contents log_of_example)
  = (Returns (tag_count_of_example, port_protocol_count_of_example),
     [Skipping_malformed_line "too short"])
  /\ port_protocol_count_of_example.*1 = [(8080, "udp"); (80, "tcp")].
Proof.
  assert (Hrun : log_parser analyzer_of_example (Contents log_of_example)
                 = (Returns (tag_count_of_example, port_protocol_count_of_example),
                    [Skipping_malformed_line "too short"]))
    by (vm_compute; reflexivity).
  split; [exact Hrun|].
  exact (proj1 (pairs_in_order_of_first_record _ _ _ _ _ Hrun)).
Defined.

(** ** The sum of the tag counts *)

Lemma tags_sum_insert (tc : TagCounts) tag n :
  tc !! tag = None -> tags_sum (<[tag := n]> tc) = (n + tags_sum tc)%nat.
Proof.
  intros Hnone. unfold tags_sum.
  apply (map_fold_insert_L (fun (_ : string) (n acc : nat) => (n + acc)%nat));
    [|exact Hnone].
  intros j1 j2 z1 z2 y _ _ _. apply Nat.add_shuffle3.
Qed.

Lemma tags_sum_delete (tc : TagCounts) tag n :
  tc !! tag = Some n -> tags_sum tc = (n + tags_sum (delete tag tc))%nat.
Proof.
  intros Hsome. rewrite <- (insert_id tc tag n Hsome) at 1.
  rewrite <- insert_delete_eq. apply tags_sum_insert, lookup_delete_eq.
Qed.

Lemma tags_sum_incr_tag tag (tc : TagCounts) :
  tags_sum (incr_tag tag tc) = S (tags_sum tc).
Proof.
  unfold incr_tag. destruct (tc !! tag) as [n|] eqn:Htag; cbn [default].
  - rewrite <- insert_delete_eq, tags_sum_insert by apply lookup_delete_eq.
    rewrite (tags_sum_delete tc tag n Htag). reflexivity.
  - now rewrite tags_sum_insert.
Qed.

Lemma tags_sum_set_fold (tags : gset string) (tc : TagCounts) :
  tags_sum (set_fold incr_tag tc tags) = (tags_sum tc + size tags)%nat.
Proof.
  revert tags.
  apply (set_fold_ind_L
           (fun r (X : gset string) => tags_sum r = (tags_sum tc + size X)%nat)
           incr_tag tc).
  - rewrite size_empty. lia.
  - intros x X r Hx IH. rewrite tags_sum_incr_tag, IH.
    rewrite size_union by (apply disjoint_singleton_l; exact Hx).
    rewrite size_singleton. lia.
Qed.

Lemma tags_sum_count_tags index key (tc : TagCounts) :
  tags_sum (count_tags index key tc) = (tags_sum tc + fan_out index key)%nat.
Proof.
  unfold count_tags, fan_out. destruct (decide (tags_of index key ≠ ∅)).
  - apply tags_sum_set_fold.
  - rewrite tags_sum_incr_tag. lia.
Qed.

Lemma fan_out_positive index key : (1 <= fan_out index key)%nat.
Proof.
  unfold fan_out. destruct (decide (tags_of index key ≠ ∅)) as [Hne|]; [|lia].
  destruct (size (tags_of index key)) eqn:Hsize; [|lia].
  apply size_empty_iff in Hsize. exfalso. apply Hne.
  now apply leibniz_equiv.
Qed.

Lemma tags_sum_fold index lines : forall c,
  tags_sum (tag_count (fold_left (count_step index) lines c))
  = (tags_sum (tag_count c)
     + sum_list (fan_out index <$> omap log_entry lines))%nat.
Proof.
  induction lines as [|line lines IH]; intros c; cbn [fold_left omap list_omap].
  - cbn. lia.
  - rewrite IH. unfold count_step.
    destruct (log_entry line) as [k|]; [|reflexivity].
    cbn [tag_count]. rewrite tags_sum_count_tags, fmap_cons. cbn. lia.
Qed.

Lemma sum_list_fan_out_length index (keys : list (Z * string)) :
  (length keys <= sum_list (fan_out index <$> keys))%nat.
Proof.
  induction keys as [|k keys IH]; [cbn; lia|].
  rewrite fmap_cons. cbn. pose proof (fan_out_positive index k). lia.
Qed.

(** X6: all the tag counts [log_parser] returns add up to the sum, over
    the valid records, of the number of tags of the record's pair, a
    pair without rule counting for one; so the sum is at least the
    number of valid records, which is the sum of the pair counts. *)
Theorem tag_counts_add_up :
  forall self text tc ppc log,
    log_parser self (Contents text) = (Returns (tc, ppc), log) ->
    tags_sum tc
    = sum_list (fan_out (port_rule_dictionary self)
                  <$> records (has_headers self) (Py.readlines text))
    /\ (sum_list ppc.*2 <= tags_sum tc)%nat.
Proof.
  intros self text tc ppc log Hrun.
  destruct (log_parser_contents self text tc ppc log Hrun) as (-> & -> & _).
  rewrite tags_sum_fold, sum_fold_count_step.
  assert (H0 : tags_sum (tag_count no_counts) = 0%nat) by reflexivity.
  rewrite H0. split; [reflexivity|]. cbn [no_counts port_protocol_count].
  apply sum_list_fan_out_length.
Qed.

Lemma tag_counts_add_up_witness :
  log_parser analyzer_of_example (Contents log_of_example)
  = (Returns (tag_count_of_example, port_protocol_count_of_example),
     [Skipping_malformed_line "too short"])
  /\ tags_sum tag_count_of_example = 5%nat.
Proof.
  assert (Hrun : log_parser analyzer_of_example (Contents log_of_example)
                 = (Returns (tag_count_of_example, port_protocol_count_of_example),
                    [Skipping_malformed_line "too short"]))
    by (vm_compute; reflexivity).
  split; [exact Hrun|].
  destruct (tag_counts_add_up _ _ _ _ _ Hrun) as [Hsum _].
  rewrite Hsum. vm_compute. reflexivity.
Defined.

(** ** What the results depend on *)

Lemma index_ext (d1 d2 : RuleIndex) :
  no_empty_set d1 -> no_empty_set d2 ->
  (forall key, tags_of d1 key = tags_of d2 key) -> d1 = d2.
Proof.
  intros H1 H2 Htags. apply map_eq. intros key.
  specialize (Htags key). unfold tags_of in Htags.
  destruct (d1 !! key) as [s1|] eqn:E1, (d2 !! key) as [s2|] eqn:E2;
    simpl in Htags.
  - now rewrite Htags.
  - exfalso. now apply (H1 key s1 E1).
  - exfalso. apply (H2 key s2 E2). now symmetry.
  - reflexivity.
Qed.

Lemma tags_of_index_entries hh lines key tag :
  tag ∈ tags_of (parse_lookup_lines hh lines ∅).1 key
  <-> (key, tag) ∈ entries hh lines.
Proof.
  rewrite parse_lookup_lines_index, tags_of_fold. unfold entries.
  rewrite list_elem_of_omap. unfold tags_of at 1. rewrite lookup_empty.
  simpl. rewrite elem_of_empty. split.
  - intros [[]|(line & Hin & He)]. exists line. now rewrite list_elem_of_In.
  - intros (line & Hin & He). right. exists line. now rewrite <- list_elem_of_In.
Qed.

Lemma no_empty_set_parse hh lines : no_empty_set (parse_lookup_lines hh lines ∅).1.
Proof.
  rewrite parse_lookup_lines_index. apply no_empty_set_fold, no_empty_set_empty.
Qed.

Lemma index_of_same_entries hh1 lines1 hh2 lines2 :
  (forall entry, entry ∈ entries hh1 lines1 <-> entry ∈ entries hh2 lines2) ->
  (parse_lookup_lines hh1 lines1 ∅).1 = (parse_lookup_lines hh2 lines2 ∅).1.
Proof.
  intros Hsame.
  apply index_ext; try apply no_empty_set_parse.
  intros key. apply set_eq. intros tag.
  rewrite !tags_of_index_entries. apply Hsame.
Qed.

(** X7: the index is a function of the set of entries of the valid
    rows: two lookup tables with the same entries, in any order and any
    number of copies, build the same index.  So the index does not
    change when the rows are permuted, nor when the table is read
    twice over. *)
Theorem index_depends_on_entries_only :
  forall hh1 lines1 hh2 lines2,
    (forall entry, entry ∈ entries hh1 lines1 <-> entry ∈ entries hh2 lines2) ->
    (parse_lookup_lines hh1 lines1 ∅).1 = (parse_lookup_lines hh2 lines2 ∅).1.
Proof.
  intros hh1 lines1 hh2 lines2 Hsame. now apply index_of_same_entries.
Qed.

Lemma index_depends_on_entries_only_witness :
  (forall entry,
      entry ∈ entries false ["80,tcp,web"; "22,TCP,ssh"; "80,tcp,web"]
      <-> entry ∈ entries true ["port,protocol,tag"; "22,tcp,ssh"; "oops"; "80,tcp,web"])
  /\ (parse_lookup_lines false ["80,tcp,web"; "22,TCP,ssh"; "80,tcp,web"] ∅).1
     = (parse_lookup_lines true
          ["port,protocol,tag"; "22,tcp,ssh"; "oops"; "80,tcp,web"] ∅).1.
Proof.
  assert (Hsame : forall entry,
             entry ∈ entries false ["80,tcp,web"; "22,TCP,ssh"; "80,tcp,web"]
             <-> entry ∈ entries true
                   ["port,protocol,tag"; "22,tcp,ssh"; "oops"; "80,tcp,web"]).
  { intros entry.
    change (entries false ["80,tcp,web"; "22,TCP,ssh"; "80,tcp,web"])
      with [((80, "tcp"), "web"); ((22, "tcp"), "ssh"); ((80, "tcp"), "web")].
    change (entries true ["port,protocol,tag"; "22,tcp,ssh"; "oops"; "80,tcp,web"])
      with [((22, "tcp"), "ssh"); ((80, "tcp"), "web")].
    rewrite !elem_of_cons, elem_of_nil. tauto. }
  split; [exact Hsame|].
  exact (index_depends_on_entries_only false _ true _ Hsame).
Defined.

Lemma entries_Permutation lines1 lines2 :
  lines1 ≡ₚ lines2 -> entries false lines1 ≡ₚ entries false lines2.
Proof. intros H. unfold entries, skip_header. now rewrite H. Qed.

(** X8: without header, permuting the rows of the lookup table, or
    appending a permuted copy of the table to it, leaves the index as
    it is. *)
Theorem index_ignores_order_and_copies :
  forall lines1 lines2,
    lines1 ≡ₚ lines2 ->
    (parse_lookup_lines false lines1 ∅).1 = (parse_lookup_lines false lines2 ∅).1
    /\ (parse_lookup_lines false (lines1 ++ lines2) ∅).1
       = (parse_lookup_lines false lines1 ∅).1.
Proof.
  intros lines1 lines2 Hperm. split.
  - apply index_of_same_entries. intros entry.
    now rewrite (entries_Permutation _ _ Hperm).
  - apply index_of_same_entries. intros entry.
    unfold entries, skip_header. rewrite omap_app, elem_of_app.
    fold (entries false lines1) (entries false lines2).
    rewrite <- (entries_Permutation _ _ Hperm). tauto.
Qed.

Lemma index_ignores_order_and_copies_witness :
  ["80,tcp,web"; "22,tcp,ssh"] ≡ₚ ["22,tcp,ssh"; "80,tcp,web"]
  /\ (parse_lookup_lines false ["80,tcp,web"; "22,tcp,ssh"] ∅).1
     = (parse_lookup_lines false ["22,tcp,ssh"; "80,tcp,web"] ∅).1.
Proof.
  assert (Hperm : ["80,tcp,web"; "22,tcp,ssh"] ≡ₚ ["22,tcp,ssh"; "80,tcp,web"])
    by apply perm_swap.
  split; [exact Hperm|].
  exact (proj1 (index_ignores_order_and_copies _ _ Hperm)).
Defined.

Lemma tag_counts_ext (tc1 tc2 : TagCounts) :
  positive_tags tc1 -> positive_tags tc2 ->
  (forall tag, tag_total tc1 tag = tag_total tc2 tag) -> tc1 = tc2.
Proof.
  intros H1 H2 Htot. apply map_eq. intros tag.
  specialize (Htot tag). unfold tag_total in Htot.
  destruct (tc1 !! tag) as [n1|] eqn:E1, (tc2 !! tag) as [n2|] eqn:E2;
    simpl in Htot.
  - now rewrite Htot.
  - specialize (H1 tag n1 E1). lia.
  - specialize (H2 tag n2 E2). lia.
  - reflexivity.
Qed.

Lemma occurrences_Permutation key (keys1 keys2 : list (Z * string)) :
  keys1 ≡ₚ keys2 -> occurrences key keys1 = occurrences key keys2.
Proof.
  unfold occurrences. induction 1 as [|k l l' _ IH|k k' l|l l' l'' _ IH1 _ IH2];
    cbn [List.filter].
  - reflexivity.
  - destruct (bool_decide (k = key)); cbn [length]; now rewrite IH.
  - now destruct (bool_decide (k = key)), (bool_decide (k' = key)).
  - congruence.
Qed.

(** X9: the counts do not depend on the order of the records.  Two
    flow logs whose data lines are permutations of each other give the
    same tag counts and, for every pair, the same pair count; only the
    order of the pairs in the second mapping can differ. *)
Theorem counts_ignore_record_order :
  forall (index : RuleIndex) lines1 lines2,
    lines1 ≡ₚ lines2 ->
    let c1 := (log_lines index lines1).1 in
    let c2 := (log_lines index lines2).1 in
    tag_count c1 = tag_count c2
    /\ forall key,
        pair_total (port_protocol_count c1) key
        = pair_total (port_protocol_count c2) key.
Proof.
  intros index lines1 lines2 Hperm c1 c2. subst c1 c2. unfold log_lines.
  rewrite !fold_log_line_counts.
  destruct positive_no_counts as [Ht Hp].
  assert (Hrec : omap log_entry lines1 ≡ₚ omap log_entry lines2)
    by now rewrite Hperm.
  split.
  - apply tag_counts_ext.
    + now apply positive_fold_count_step.
    + now apply positive_fold_count_step.
    + intros tag. rewrite !tag_total_fold. f_equal.
      now rewrite Hrec.
  - intros key. rewrite !pair_total_fold. f_equal.
    now apply occurrences_Permutation.
Qed.

Lemma counts_ignore_record_order_witness :
  [record_of_test; untagged_record_of_test]
    ≡ₚ [untagged_record_of_test; record_of_test]
  /\ tag_count (log_lines (port_rule_dictionary analyzer_of_example)
                          [record_of_test; untagged_record_of_test]).1
     = tag_count (log_lines (port_rule_dictionary analyzer_of_example)
                            [untagged_record_of_test; record_of_test]).1.
Proof.
  assert (Hperm : [record_of_test; untagged_record_of_test]
                    ≡ₚ [untagged_record_of_test; record_of_test])
    by apply perm_swap.
  split; [exact Hperm|].
  exact (proj1 (counts_ignore_record_order
                  (port_rule_dictionary analyzer_of_example) _ _ Hperm)).
Defined.

(** ** Resolved protocols *)

Lemma lower_char_idem c : Py.lower_char (Py.lower_char c) = Py.lower_char c.
Proof. destruct c as [[] [] [] [] [] [] [] []]; reflexivity. Qed.

Lemma lower_idem s : Py.lower (Py.lower s) = Py.lower s.
Proof.
  induction s as [|c s IH]; [reflexivity|].
  cbn [Py.lower]. now rewrite lower_char_idem, IH.
Qed.

(** Lowercasing never makes a digit out of something else. *)
Lemma lower_char_digit c :
  is_digit (Py.lower_char c) = true -> Py.lower_char c = c.
Proof. destruct c as [[] [] [] [] [] [] [] []]; (reflexivity || discriminate). Qed.

Lemma lower_all_digits s :
  all_digits (Py.lower s) = true -> Py.lower s = s.
Proof.
  induction s as [|c s IH]; [reflexivity|].
  cbn [Py.lower all_digits]. intros H. apply andb_true_iff in H as [Hc Hs].
  now rewrite (lower_char_digit c Hc), (IH Hs).
Qed.

Lemma PROTOCOL_MAP_keys_digits key :
  In key (map fst PROTOCOL_MAP) -> all_digits key = true.
Proof.
  cbn [map fst PROTOCOL_MAP]. intros H.
  repeat (destruct H as [<-|H]; [reflexivity|]). destruct H.
Qed.

Lemma PROTOCOL_MAP_values kv :
  In kv PROTOCOL_MAP ->
  Py.lower (snd kv) = snd kv /\ ~ In (snd kv) (map fst PROTOCOL_MAP).
Proof.
  cbn [PROTOCOL_MAP]. intros H.
  repeat (destruct H as [<-|H];
          [split; [reflexivity|];
           cbn [map fst snd]; intros H;
           repeat (destruct H as [H|H]; [discriminate H|]); exact H|]).
  destruct H.
Qed.

Lemma resolved_protocol_facts token :
  Py.lower (resolveProtocol token) = resolveProtocol token
  /\ ~ In (resolveProtocol token) (map fst PROTOCOL_MAP).
Proof.
  unfold resolveProtocol, dict_get.
  destruct (find _ PROTOCOL_MAP) as [kv|] eqn:Hfind.
  - apply find_some in Hfind as [Hin _]. now apply PROTOCOL_MAP_values.
  - split; [apply lower_idem|]. intros Hin.
    pose proof (lower_all_digits token (PROTOCOL_MAP_keys_digits _ Hin)) as Heq.
    rewrite Heq in Hin. apply in_map_iff in Hin as (kv & Hkey & Hkv).
    apply (find_none _ _ Hfind) in Hkv. rewrite Hkey, String.eqb_refl in Hkv.
    discriminate.
Qed.

(** X10: a resolved protocol is in normal form.  It is lowercase, it is
    never one of the numbers of the table, and resolving it again gives
    it back. *)
Theorem resolveProtocol_normal_form :
  forall token,
    Py.lower (resolveProtocol token) = resolveProtocol token
    /\ ~ In (resolveProtocol token) (map fst PROTOCOL_MAP)
    /\ resolveProtocol (resolveProtocol token) = resolveProtocol token.
Proof.
  intros token.
  pose proof (resolved_protocol_facts token) as Hfirst.
  destruct Hfirst as [Hlow Hnot]. split; [exact Hlow|]. split; [exact Hnot|].
  unfold resolveProtocol at 1. rewrite dict_get_missing by exact Hnot.
  exact Hlow.
Qed.

Lemma log_entry_protocol line key :
  log_entry line = Some key -> exists token, key.2 = resolveProtocol token.
Proof.
  unfold log_entry. destruct (_ <? _)%nat; [discriminate|].
  destruct (Py.int _); [|discriminate]. cbn. intros [= <-]. now eexists.
Qed.

(** X11: the keys of both results carry a lowercase protocol.  This
    holds for every key of the index of a constructed analyzer, and for
    every pair of the second mapping of [log_parser], whose protocol is
    moreover never a number of the table. *)
Theorem result_keys_are_lowercase :
  (forall hh lines key,
      is_Some ((parse_lookup_lines hh lines ∅).1 !! key) ->
      Py.lower key.2 = key.2)
  /\ (forall self text tc ppc log key,
        log_parser self (Contents text) = (Returns (tc, ppc), log) ->
        key ∈ ppc.*1 ->
        Py.lower key.2 = key.2 /\ ~ In key.2 (map fst PROTOCOL_MAP)).
Proof.
  split.
  - intros hh lines key [tags Htags].
    pose proof (no_empty_set_parse hh lines key tags Htags) as Hne.
    apply set_choose_L in Hne as [tag Htag].
    assert (Hin : tag ∈ tags_of (parse_lookup_lines hh lines ∅).1 key)
      by (unfold tags_of; now rewrite Htags).
    apply tags_of_index_entries, list_elem_of_omap in Hin as (line & _ & He).
    unfold lookup_entry in He. destruct (_ <? _)%nat; [discriminate|].
    destruct (Py.int _); [|discriminate]. cbn in He. injection He as <- _.
    apply lower_idem.
  - intros self text tc ppc log key Hrun Hkey.
    apply (pairs_are_of_records self text tc ppc log Hrun) in Hkey.
    apply list_elem_of_omap in Hkey as (line & _ & He).
    apply log_entry_protocol in He as [token ->].
    exact (resolved_protocol_facts token).
Qed.

Lemma result_keys_are_lowercase_witness :
  is_Some ((parse_lookup_lines false ["80,TCP,web"] ∅).1 !! (80, "tcp"))
  /\ Py.lower "tcp" = "tcp".
Proof.
  assert (H : is_Some ((parse_lookup_lines false ["80,TCP,web"] ∅).1 !! (80, "tcp"))).
  { exists {[ "web" ]}. vm_compute. reflexivity. }
  split; [exact H|].
  exact (proj1 result_keys_are_lowercase false ["80,TCP,web"] (80, "tcp") H).
Defined.

Lemma sum_list_zero (f : Z * string -> nat) keys :
  (forall key, key ∈ keys -> f key = 0%nat) -> sum_list (f <$> keys) = 0%nat.
Proof.
  induction keys as [|k keys IH]; intros H; [reflexivity|].
  rewrite fmap_cons. cbn. rewrite (H k) by (apply elem_of_cons; now left).
  rewrite IH; [reflexivity|]. intros key Hkey. apply H, elem_of_cons. now right.
Qed.

(** X12: a rule written with a protocol number never matches.  The
    protocol of a row of the lookup table is only lowercased, while the
    protocol of a record is resolved to a name; so a tag whose rules all
    carry a number of the table as protocol (as in the row 53,17,dns) is
    absent from the tag counts, whatever the flow log holds. *)
Theorem numeric_rules_never_match :
  forall self text tc ppc log tag,
    log_parser self (Contents text) = (Returns (tc, ppc), log) ->
    tag ≠ "Untagged" ->
    (forall key, tag ∈ tags_of (port_rule_dictionary self) key ->
                 In key.2 (map fst PROTOCOL_MAP)) ->
    tc !! tag = None.
Proof.
  intros self text tc ppc log tag Hrun Hne Hrules.
  pose proof (tag_totals_of_run self text tc ppc log Hrun tag)
    as Htot.
  assert (Hpos : positive_tags tc).
  { destruct (log_parser_contents self text tc ppc log Hrun) as (-> & _ & _).
    destruct positive_no_counts as [Ht Hp].
    now apply positive_fold_count_step. }
  rewrite sum_list_zero in Htot.
  - unfold tag_total in Htot. destruct (tc !! tag) as [n|] eqn:Htag; [|reflexivity].
    specialize (Hpos tag n Htag). simpl in Htot. lia.
  - intros key Hkey. unfold records in Hkey.
    apply list_elem_of_omap in Hkey as (line & _ & He).
    apply log_entry_protocol in He as [token Htoken].
    unfold tag_hits. destruct (decide (tags_of _ key ≠ ∅)).
    + destruct (decide (tag ∈ tags_of _ key)) as [Hin|]; [|reflexivity].
      exfalso. apply Hrules in Hin. rewrite Htoken in Hin.
      now apply (resolved_protocol_facts token).
    + now rewrite decide_False.
Qed.

Lemma numeric_rules_never_match_witness :
  let self := {| has_headers := false;
                 port_rule_dictionary := {[ (53, "17") := {[ "dns" ]} ]} |} in
  let text := "1 2 eth0 10.0.0.1 10.0.0.2 1234 53 17 10 1000 1 2 ACCEPT OK" in
  log_parser self (Contents text)
  = (Returns ({[ "Untagged" := 1%nat ]}, [((53, "udp"), 1%nat)]), [])
  /\ ({[ "Untagged" := 1%nat ]} : TagCounts) !! "dns" = None.
Proof.
  intros self text.
  assert (Hrun : log_parser self (Contents text)
                 = (Returns ({[ "Untagged" := 1%nat ]}, [((53, "udp"), 1%nat)]), []))
    by (vm_compute; reflexivity).
  split; [exact Hrun|].
  refine (numeric_rules_never_match self text _ _ _ "dns" Hrun _ _).
  - discriminate.
  - intros key Hin. subst self. cbn [port_rule_dictionary] in Hin.
    unfold tags_of in Hin. destruct (decide (key = (53, "17"))) as [->|Hne].
    + cbn. do 7 right. now left.
    + rewrite lookup_singleton_ne in Hin by congruence.
      simpl in Hin. now apply elem_of_empty in Hin.
Defined.

(** ** More on the report *)

Lemma insert_below {A} (lt : A -> A -> bool) x l :
  Forall (fun y => lt y x = false) l -> Py.insert lt x l = x :: l.
Proof.
  intros H. destruct H as [|y l Hy _]; cbn [Py.insert]; [reflexivity|].
  now rewrite Hy.
Qed.

Lemma sorted_of_sorted (l : list (Z * string * nat)) :
  StronglySorted (fun x y => x.1.1 <= y.1.1) l -> Py.sorted port_lt l = l.
Proof.
  induction 1 as [|x l Hl IH Hx]; [reflexivity|].
  cbn [Py.sorted foldr]. fold (Py.sorted port_lt l). rewrite IH.
  apply insert_below. eapply Forall_impl; [exact Hx|].
  intros y Hxy. unfold port_lt. cbn beta in Hxy. apply Z.ltb_ge. exact Hxy.
Qed.

(** X13: the protocol written in the report is the protocol of the
    mapping: the loop of [write_results] over the table never changes
    it, name of the table or not.  So the rows of the second section are
    the entries of the mapping, sorted, and the report has one line per
    tag and per pair besides its five fixed lines. *)
Theorem report_keeps_protocols :
  forall (tc : TagCounts) (ppc : PortProtocolCounts),
    (forall protocol, protocol_name protocol = protocol)
    /\ sorted_counts ppc = ppc
    /\ report tc ppc
       = ["Tag Counts:" +:+ nl; "Tag,Count" +:+ nl]
         ++ map tag_row (Py.sorted item_lt (map_to_list tc))
         ++ [nl; "Port/Protocol Combination Counts:" +:+ nl;
             "Port,Protocol,Count" +:+ nl]
         ++ map port_row (Py.sorted port_lt ppc)
    /\ length (report tc ppc) = (5 + size tc + length ppc)%nat.
Proof.
  intros tc ppc. split; [apply protocol_name_id|].
  split; [apply sorted_counts_id|].
  unfold report. rewrite sorted_counts_id. split; [reflexivity|].
  cbn [app length]. rewrite length_app, !length_map. cbn [length].
  rewrite length_map.
  rewrite (Permutation_length (sorted_Permutation item_lt (map_to_list tc))).
  rewrite (Permutation_length (sorted_Permutation port_lt ppc)).
  rewrite length_map_to_list. lia.
Qed.

(** X14: a mapping whose pairs already stand in ascending order of the
    port is written in its own order. *)
Theorem report_of_sorted_pairs :
  forall (tc : TagCounts) (ppc : PortProtocolCounts),
    StronglySorted (fun x y => x.1.1 <= y.1.1) ppc ->
    report tc ppc
    = ["Tag Counts:" +:+ nl; "Tag,Count" +:+ nl]
      ++ map tag_row (Py.sorted item_lt (map_to_list tc))
      ++ [nl; "Port/Protocol Combination Counts:" +:+ nl;
          "Port,Protocol,Count" +:+ nl]
      ++ map port_row ppc.
Proof.
  intros tc ppc Hsorted. unfold report.
  now rewrite sorted_counts_id, (sorted_of_sorted ppc Hsorted).
Qed.

Lemma report_of_sorted_pairs_witness :
  StronglySorted (fun x y : Z * string * nat => x.1.1 <= y.1.1)
                 [((22, "tcp"), 1%nat); ((80, "udp"), 2%nat); ((80, "tcp"), 1%nat)]
  /\ report ∅ [((22, "tcp"), 1%nat); ((80, "udp"), 2%nat); ((80, "tcp"), 1%nat)]
     = ["Tag Counts:" +:+ nl; "Tag,Count" +:+ nl; nl;
        "Port/Protocol Combination Counts:" +:+ nl; "Port,Protocol,Count" +:+ nl;
        "22,tcp,1" +:+ nl; "80,udp,2" +:+ nl; "80,tcp,1" +:+ nl].
Proof.
  assert (Hs : StronglySorted (fun x y : Z * string * nat => x.1.1 <= y.1.1)
                 [((22, "tcp"), 1%nat); ((80, "udp"), 2%nat); ((80, "tcp"), 1%nat)]).
  { repeat constructor; cbn; lia. }
  split; [exact Hs|].
  rewrite (report_of_sorted_pairs ∅ _ Hs). vm_compute. reflexivity.
Defined.

(** ** [main] *)

Lemma LogAnalyzer_init_returns f hh self log :
  LogAnalyzer_init f hh = (Returns self, log) ->
  (exists text, f = Contents text) /\ has_headers self = hh.
Proof.
  destruct f as [| |text]; try discriminate.
  unfold LogAnalyzer_init, parse_lookup_table. cbn [has_headers port_rule_dictionary].
  destruct (parse_lookup_lines hh (Py.readlines text) ∅) as [d log'].
  intros [= <- _]. split; [now exists text|reflexivity].
Qed.

Lemma LogAnalyzer_init_exits f hh status log :
  LogAnalyzer_init f hh = (Exits status, log) ->
  status = 1 /\ forall text, f ≠ Contents text.
Proof.
  destruct f as [| |text].
  - intros [= <- _]. now split.
  - intros [= <- _]. now split.
  - unfold LogAnalyzer_init, parse_lookup_table.
    destruct (parse_lookup_lines _ _ _) as [d log']. discriminate.
Qed.

Lemma log_parser_returns_inv self f result log :
  log_parser self f = (Returns result, log) ->
  exists text, f = Contents text
               /\ (has_headers self = false \/ Py.readlines text ≠ []).
Proof.
  destruct f as [| |text]; try discriminate.
  unfold log_parser, log_parser_lines. intros H. exists text. split; [reflexivity|].
  destruct (has_headers self); [|now left].
  destruct (Py.readlines text); [discriminate|now right].
Qed.

Lemma log_parser_exits self f status log :
  log_parser self f = (Exits status, log) ->
  status = 1
  /\ forall text, f = Contents text ->
                  has_headers self = true /\ Py.readlines text = [].
Proof.
  destruct f as [| |text].
  - intros [= <- _]. now split.
  - intros [= <- _]. now split.
  - unfold log_parser, log_parser_lines. destruct (has_headers self).
    + destruct (Py.readlines text) as [|h lines] eqn:Hlines.
      * intros [= <- _]. split; [reflexivity|]. intros t [= <-]. now split.
      * destruct (log_lines _ lines). discriminate.
    + destruct (log_lines _ _). discriminate.
Qed.



Lemma argv_length_ok (argv : list string) :
  negb ((length argv =? 4)%nat || (length argv =? 5)%nat) = false
  <-> length argv = 4%nat \/ length argv = 5%nat.
Proof.
  rewrite negb_false_iff, orb_true_iff, !Nat.eqb_eq. reflexivity.
Qed.

(** X15: the exit status of [main] is 0 or 1, and it is 0 exactly when
    there are three or four arguments after the program name, the lookup
    table reads, the flow log reads and has a first line to drop unless
    [--no-headers] is given, and the output file can be written. *)
Theorem main_exit_status :
  forall argv fs,
    ((main argv fs).1 = 0 \/ (main argv fs).1 = 1)
    /\ ((main argv fs).1 = 0 <->
        (length argv = 4%nat \/ length argv = 5%nat)
        /\ (exists text, open_read fs (nth 1 argv "") = Contents text)
        /\ (exists text, open_read fs (nth 2 argv "") = Contents text
                         /\ (no_headers_flag argv = true \/ Py.readlines text ≠ []))
        /\ open_write fs (nth 3 argv "") = Sound).
Proof.
  intros argv fs. unfold main.
  destruct (negb _) eqn:Hlen.
  { cbn [fst]. split; [now right|]. split; [discriminate|].
    intros (Hargs & _). apply argv_length_ok in Hargs. congruence. }
  apply argv_length_ok in Hlen.
  destruct (LogAnalyzer_init _ _) as [[self|st1] log1] eqn:Hinit.
  2:{ apply LogAnalyzer_init_exits in Hinit as [-> Hno]. cbn [fst].
      split; [now right|]. split; [discriminate|].
      intros (_ & [text Htext] & _). now destruct (Hno text). }
  apply LogAnalyzer_init_returns in Hinit as [Hlookup Hhh].
  destruct (log_parser self _) as [[[tc ppc]|st2] log2] eqn:Hrun.
  2:{ apply log_parser_exits in Hrun as [-> Hno]. cbn [fst].
      split; [now right|]. split; [discriminate|].
      intros (_ & _ & (text & Htext & Hok) & _).
      destruct (Hno text Htext) as [Hh Hempty]. rewrite Hhh in Hh.
      apply negb_true_iff in Hh. destruct Hok as [Hok|Hok]; congruence. }
  apply log_parser_returns_inv in Hrun as (text & Htext & Hok).
  unfold write_results. destruct (open_write fs _) eqn:Hw; cbn [fst].
  - split; [now right|]. split; [discriminate|]. intros (_ & _ & _ & H). discriminate.
  - split; [now right|]. split; [discriminate|]. intros (_ & _ & _ & H). discriminate.
  - split; [now left|]. split; [|reflexivity]. intros _.
    split; [exact Hlen|]. split; [exact Hlookup|]. split; [|reflexivity].
    exists text. split; [exact Htext|]. rewrite Hhh in Hok.
    destruct Hok as [Hok|Hok]; [left|now right]. now apply negb_false_iff in Hok.
Qed.


(** X17: the arguments of [main].  With fewer than three or more than
    four arguments after the program name it prints the usage line and
    ends with status 1 without opening any file; a fourth argument other
    than [--no-headers] changes nothing; the program name is not used. *)
Theorem main_arguments :
  (forall argv fs,
      length argv ≠ 4%nat -> length argv ≠ 5%nat ->
      main argv fs = (1, [Printed usage]))
  /\ (forall name lookup_file log_file output_file flag fs,
        flag ≠ "--no-headers" ->
        main [name; lookup_file; log_file; output_file; flag] fs
        = main [name; lookup_file; log_file; output_file] fs)
  /\ (forall name name' args fs, main (name :: args) fs = main (name' :: args) fs).
Proof.
  split; [|split].
  - intros argv fs H4 H5. unfold main.
    destruct (negb _) eqn:Hlen; [reflexivity|].
    apply argv_length_ok in Hlen. lia.
  - intros name lookup_file log_file output_file flag fs Hflag.
    unfold main, no_headers_flag. cbn [length nth Nat.eqb negb orb andb].
    apply String.eqb_neq in Hflag. now rewrite Hflag.
  - intros name name' args fs. unfold main, no_headers_flag. cbn [length].
    destruct args as [|a1 [|a2 [|a3 [|a4 args]]]]; reflexivity.
Qed.

Lemma main_exit_status_witness :
  ((length argv_of_example = 4%nat \/ length argv_of_example = 5%nat)
   /\ (exists text, open_read fs_of_example (nth 1 argv_of_example "") = Contents text)
   /\ (exists text,
         open_read fs_of_example (nth 2 argv_of_example "") = Contents text
         /\ (no_headers_flag argv_of_example = true \/ Py.readlines text ≠ []))
   /\ open_write fs_of_example (nth 3 argv_of_example "") = Sound)
  /\ (main argv_of_example fs_of_example).1 = 0.
Proof.
  assert (Hok : (length argv_of_example = 4%nat \/ length argv_of_example = 5%nat)
                /\ (exists text,
                      open_read fs_of_example (nth 1 argv_of_example "") = Contents text)
                /\ (exists text,
                      open_read fs_of_example (nth 2 argv_of_example "") = Contents text
                      /\ (no_headers_flag argv_of_example = true
                          \/ Py.readlines text ≠ []))
                /\ open_write fs_of_example (nth 3 argv_of_example "") = Sound).
  { split; [left; reflexivity|]. split; [eexists; reflexivity|].
    split; [|reflexivity]. eexists. split; [reflexivity|].
    right. vm_compute. discriminate. }
  split; [exact Hok|].
  exact (proj2 (proj2 (main_exit_status argv_of_example fs_of_example)) Hok).
Defined.


Lemma main_arguments_witness :
  "--verbose" ≠ "--no-headers"
  /\ main (argv_of_example ++ ["--verbose"]) fs_of_example
     = main argv_of_example fs_of_example.
Proof.
  assert (Hflag : "--verbose" ≠ "--no-headers") by discriminate.
  split; [exact Hflag|].
  exact (proj1 (proj2 main_arguments) _ _ _ _ "--verbose" fs_of_example Hflag).
Defined.

Example main_of_example :
  main argv_of_example fs_of_example
  = (0, [Written "out.txt"
           ["Tag Counts:" +:+ nl; "Tag,Count" +:+ nl;
            "Untagged,1" +:+ nl; "web,1" +:+ nl; nl;
            "Port/Protocol Combination Counts:" +:+ nl;
            "Port,Protocol,Count" +:+ nl;
            "80,tcp,1" +:+ nl; "8080,udp,1" +:+ nl];
         Analysis_complete "out.txt"]).
Proof. vm_compute. reflexivity. Qed.

(** ** White space around a line *)

Lemma lstrip_idem s : Py.lstrip (Py.lstrip s) = Py.lstrip s.
Proof.
  induction s as [|c s IH]; [reflexivity|].
  cbn [Py.lstrip]. destruct (Py.isspace c) eqn:Hc; [exact IH|].
  cbn [Py.lstrip]. now rewrite Hc.
Qed.

Lemma rstrip_idem s : Py.rstrip (Py.rstrip s) = Py.rstrip s.
Proof.
  induction s as [|c s IH]; [reflexivity|].
  cbn [Py.rstrip]. destruct (Py.rstrip s) as [|d r] eqn:Hr.
  - destruct (Py.isspace c) eqn:Hc; [reflexivity|].
    cbn [Py.rstrip]. now rewrite Hc.
  - change (Py.rstrip (String c (String d r))) with
      (match Py.rstrip (String d r) with
       | EmptyString => if Py.isspace c then EmptyString else String c EmptyString
       | String _ _ as r0 => String c r0
       end).
    now rewrite IH.
Qed.

(** Dropping white space in front keeps a text that does not end in
    white space free of it at the end. *)
Lemma rstrip_lstrip s : Py.rstrip s = s -> Py.rstrip (Py.lstrip s) = Py.lstrip s.
Proof.
  induction s as [|c s IH]; [reflexivity|].
  intros Hfix. cbn [Py.lstrip]. destruct (Py.isspace c) eqn:Hc; [|exact Hfix].
  apply IH. cbn [Py.rstrip] in Hfix. destruct (Py.rstrip s) as [|d r].
  - rewrite Hc in Hfix. discriminate.
  - now injection Hfix.
Qed.

Lemma strip_idem s : Py.strip (Py.strip s) = Py.strip s.
Proof.
  unfold Py.strip.
  rewrite (rstrip_lstrip (Py.rstrip s) (rstrip_idem s)). apply lstrip_idem.
Qed.

(** X18: white space at the two ends of a line does not count.  Each
    parser treats a line and the same line without the white space
    around it alike: same index or counts, same warning. *)
Theorem surrounding_white_space_is_ignored :
  forall line,
    (forall st, lookup_line st (Py.strip line) = lookup_line st line)
    /\ (forall index st, log_line index st (Py.strip line) = log_line index st line).
Proof.
  intros line. split.
  - intros [d log]. unfold lookup_line, lookup_row. now rewrite strip_idem.
  - intros index [c log]. unfold log_line. now rewrite strip_idem.
Qed.

Example main_of_broken_example :
  main argv_of_example fs_of_broken_example
  = (1, [Written "out.txt"
           ["Tag Counts:" +:+ nl; "Tag,Count" +:+ nl; "Untagged,1" +:+ nl];
         Logged Error_writing_results]).
Proof. vm_compute. reflexivity. Qed.

(** ** One record more, one row more: the methods themselves *)

Lemma skip_header_app hh (pre rest : list string) :
  (hh = true -> pre ≠ []) ->
  skip_header hh (pre ++ rest) = skip_header hh pre ++ rest.
Proof.
  intros Hpre. destruct hh; [|reflexivity].
  destruct pre as [|h pre]; [now destruct Hpre|reflexivity].
Qed.

(** What [log_parser] returns on a file it classifies, as a fold. *)
Lemma log_parser_run self text :
  has_headers self = false \/ Py.readlines text ≠ [] ->
  log_parser self (Contents text)
  = (Returns
       (tag_count (fold_left (count_step (port_rule_dictionary self))
                             (skip_header (has_headers self) (Py.readlines text))
                             no_counts),
        port_protocol_count
          (fold_left (count_step (port_rule_dictionary self))
                     (skip_header (has_headers self) (Py.readlines text))
                     no_counts)),
     omap log_warning (skip_header (has_headers self) (Py.readlines text))).
Proof.
  intros Hok. destruct (log_parser_returns self text Hok) as (tc & ppc & log & Hrun).
  destruct (log_parser_contents self text tc ppc log Hrun) as (Htc & Hppc & Hlog).
  now rewrite Hrun, Htc, Hppc, Hlog.
Qed.

Lemma log_entry_no_warning line key :
  log_entry line = Some key -> log_warning line = None.
Proof.
  unfold log_entry, log_warning. destruct (_ <? _)%nat; [discriminate|].
  now destruct (Py.int _).
Qed.

Lemma records_with line key (a b : list string) :
  log_entry line = Some key ->
  omap log_entry (a ++ line :: b) = omap log_entry a ++ key :: omap log_entry b.
Proof. intros He. rewrite omap_app. cbn [omap list_omap]. now rewrite He. Qed.

Lemma warnings_with line key (a b : list string) :
  log_entry line = Some key ->
  omap log_warning (a ++ line :: b) = omap log_warning (a ++ b).
Proof.
  intros He. rewrite !omap_app. cbn [omap list_omap].
  now rewrite (log_entry_no_warning line key He).
Qed.

Lemma occurrences_with key (x y : list (Z * string)) :
  occurrences key (x ++ key :: y) = S (occurrences key (x ++ y)).
Proof.
  unfold occurrences. rewrite !List.filter_app, !length_app. cbn [List.filter].
  rewrite bool_decide_eq_true_2 by reflexivity. cbn [length]. lia.
Qed.

Lemma occurrences_with_other key key' (x y : list (Z * string)) :
  key' ≠ key -> occurrences key' (x ++ key :: y) = occurrences key' (x ++ y).
Proof.
  intros Hne. unfold occurrences. rewrite !List.filter_app. cbn [List.filter].
  now rewrite bool_decide_eq_false_2 by congruence.
Qed.

Lemma sum_list_with_key (f : Z * string -> nat) key (x y : list (Z * string)) :
  sum_list (f <$> (x ++ key :: y)) = (f key + sum_list (f <$> (x ++ y)))%nat.
Proof.
  induction x as [|k x IH]; [reflexivity|].
  cbn [app]. rewrite !fmap_cons. cbn. rewrite IH. lia.
Qed.

(** The counts of a run over the data lines, read through the totals. *)
Lemma totals_of_fold index data :
  let c := fold_left (count_step index) data no_counts in
  (forall key, pair_total (port_protocol_count c) key
               = occurrences key (omap log_entry data))
  /\ (forall tag, tag_total (tag_count c) tag
                  = sum_list (tag_hits index tag <$> omap log_entry data))
  /\ sum_list (port_protocol_count c).*2 = length (omap log_entry data).
Proof.
  cbn zeta. split; [|split].
  - intros key. now rewrite pair_total_fold.
  - intros tag. rewrite tag_total_fold. unfold tag_total, no_counts.
    cbn [tag_count]. now rewrite lookup_empty.
  - now rewrite sum_fold_count_step.
Qed.

(** C1: what a valid record adds to the mappings [log_parser] returns.
    Take a flow log and the same log with one more line at some place
    after the header, a line with at least 14 fields and an integer in
    field 6.  [log_parser] returns on both, with the same warnings, and
    between the two results the count of the record's (port, protocol)
    pair grows by exactly one, no other pair moves, so that the counts
    of all pairs together grow by one; when the rule set of the pair is
    not empty, the count of every tag of that set grows by one and no
    other tag count moves; in every case the count of at least one tag
    grows by one.  The same holds of a single call of the loop body. *)
Theorem classify_valid_record :
  forall self text text' pre line post port,
    Py.readlines text = pre ++ post ->
    Py.readlines text' = pre ++ line :: post ->
    (has_headers self = true -> pre ≠ []) ->
    (14 <= length (Py.split (Py.strip line)))%nat ->
    Py.int (nth 6 (Py.split (Py.strip line)) "") = Some port ->
    let key := (port, resolveProtocol (nth 7 (Py.split (Py.strip line)) "")) in
    let tags := tags_of (port_rule_dictionary self) key in
    (exists tc ppc tc' ppc' log,
        log_parser self (Contents text) = (Returns (tc, ppc), log)
        /\ log_parser self (Contents text') = (Returns (tc', ppc'), log)
        /\ pair_total ppc' key = S (pair_total ppc key)
        /\ (forall key', key' ≠ key -> pair_total ppc' key' = pair_total ppc key')
        /\ sum_list ppc'.*2 = S (sum_list ppc.*2)
        /\ (tags ≠ ∅ ->
            forall tag,
              tag_total tc' tag
              = (tag_total tc tag + if decide (tag ∈ tags) then 1 else 0)%nat)
        /\ (exists tag, tag_total tc' tag = S (tag_total tc tag)))
    /\ (forall c log,
          let st' := log_line (port_rule_dictionary self) (c, log) line in
          st'.2 = log
          /\ pair_total (port_protocol_count st'.1) key
             = S (pair_total (port_protocol_count c) key)
          /\ (forall key', key' ≠ key ->
                pair_total (port_protocol_count st'.1) key'
                = pair_total (port_protocol_count c) key')
          /\ sum_list (port_protocol_count st'.1).*2
             = S (sum_list (port_protocol_count c).*2)
          /\ (tags ≠ ∅ ->
              forall tag,
                tag_total (tag_count st'.1) tag
                = (tag_total (tag_count c) tag
                   + if decide (tag ∈ tags) then 1 else 0)%nat)
          /\ (exists tag,
                tag_total (tag_count st'.1) tag = S (tag_total (tag_count c) tag))).
Proof.
  intros self text text' pre line post port Htext Htext' Hpre Hlen Hint key tags.
  split; [|intros c log; exact (log_line_valid_record _ c log line port Hlen Hint)].
  pose proof (log_entry_fields line port Hlen Hint) as He. fold key in He.
  assert (Hok : has_headers self = false \/ Py.readlines text ≠ []).
  { destruct (has_headers self); [right|now left].
    rewrite Htext. destruct pre; [now destruct Hpre|discriminate]. }
  assert (Hok' : has_headers self = false \/ Py.readlines text' ≠ []).
  { right. rewrite Htext'. now destruct pre. }
  pose proof (log_parser_run self text Hok) as Hrun.
  pose proof (log_parser_run self text' Hok') as Hrun'.
  rewrite Htext, skip_header_app in Hrun by exact Hpre.
  rewrite Htext', skip_header_app in Hrun' by exact Hpre.
  rewrite (warnings_with line key _ _ He) in Hrun'.
  set (a := skip_header (has_headers self) pre) in *.
  destruct (totals_of_fold (port_rule_dictionary self) (a ++ post))
    as (Hp & Ht & Hs).
  destruct (totals_of_fold (port_rule_dictionary self) (a ++ line :: post))
    as (Hp' & Ht' & Hs').
  eexists _, _, _, _, _. split; [exact Hrun|]. split; [exact Hrun'|].
  split; [|split; [|split; [|split]]].
  - rewrite Hp, Hp', (records_with line key _ _ He), omap_app.
    apply occurrences_with.
  - intros key' Hne. rewrite Hp, Hp', (records_with line key _ _ He), omap_app.
    now apply occurrences_with_other.
  - rewrite Hs, Hs', (records_with line key _ _ He), omap_app, !length_app.
    cbn [length]. lia.
  - intros Hne tag. rewrite Ht, Ht', (records_with line key _ _ He), omap_app.
    rewrite sum_list_with_key. unfold tag_hits at 1. fold tags.
    rewrite decide_True by exact Hne. lia.
  - assert (Hhit : exists tag, tag_hits (port_rule_dictionary self) tag key = 1%nat).
    { unfold tag_hits. fold tags. destruct (decide (tags ≠ ∅)) as [Hne|_].
      - apply set_choose_L in Hne as [tag Htag]. exists tag.
        now rewrite decide_True.
      - exists "Untagged". now rewrite decide_True. }
    destruct Hhit as [tag Hhit]. exists tag.
    rewrite Ht, Ht', (records_with line key _ _ He), omap_app.
    rewrite sum_list_with_key, Hhit. reflexivity.
Qed.

Lemma classify_valid_record_witness :
  Py.readlines untagged_record_of_test = [untagged_record_of_test] ++ []
  /\ Py.readlines (untagged_record_of_test +:+ record_of_test)
     = [untagged_record_of_test] ++ record_of_test :: []
  /\ (14 <= length (Py.split (Py.strip record_of_test)))%nat
  /\ Py.int (nth 6 (Py.split (Py.strip record_of_test)) "") = Some 80
  /\ exists tc ppc tc' ppc' log,
      log_parser analyzer_of_example (Contents untagged_record_of_test)
      = (Returns (tc, ppc), log)
      /\ log_parser analyzer_of_example
                    (Contents (untagged_record_of_test +:+ record_of_test))
         = (Returns (tc', ppc'), log)
      /\ pair_total ppc' (80, "tcp") = S (pair_total ppc (80, "tcp")).
Proof.
  assert (H1 : Py.readlines untagged_record_of_test = [untagged_record_of_test] ++ [])
    by reflexivity.
  assert (H2 : Py.readlines (untagged_record_of_test +:+ record_of_test)
               = [untagged_record_of_test] ++ record_of_test :: []) by reflexivity.
  assert (H3 : has_headers analyzer_of_example = true -> [untagged_record_of_test] ≠ [])
    by discriminate.
  assert (Hlen : (14 <= length (Py.split (Py.strip record_of_test)))%nat)
    by (vm_compute; lia).
  assert (Hint : Py.int (nth 6 (Py.split (Py.strip record_of_test)) "") = Some 80)
    by reflexivity.
  split; [exact H1|]. split; [exact H2|]. split; [exact Hlen|]. split; [exact Hint|].
  destruct (proj1 (classify_valid_record analyzer_of_example _ _ _ _ _ 80
                     H1 H2 H3 Hlen Hint))
    as (tc & ppc & tc' & ppc' & log & Hrun & Hrun' & Hpair & _).
  exists tc, ppc, tc', ppc', log.
  split; [exact Hrun|]. split; [exact Hrun'|exact Hpair].
Defined.

(** C2: what a valid record without rule adds to the mappings
    [log_parser] returns.  Take a flow log and the same log with one
    more line after the header, a line with at least 14 fields and an
    integer in field 6 whose (port, protocol) pair has no rule (the key
    is absent from the index, or its set is empty).  [log_parser]
    returns on both, and between the two results the count of
    "Untagged" grows by exactly one, no other tag count moves, and the
    count of the pair still grows by one.  The same holds of a single
    call of the loop body. *)
Theorem classify_untagged_record :
  forall self text text' pre line post port,
    Py.readlines text = pre ++ post ->
    Py.readlines text' = pre ++ line :: post ->
    (has_headers self = true -> pre ≠ []) ->
    (14 <= length (Py.split (Py.strip line)))%nat ->
    Py.int (nth 6 (Py.split (Py.strip line)) "") = Some port ->
    let key := (port, resolveProtocol (nth 7 (Py.split (Py.strip line)) "")) in
    port_rule_dictionary self !! key = None
    \/ port_rule_dictionary self !! key = Some ∅ ->
    (exists tc ppc tc' ppc' log,
        log_parser self (Contents text) = (Returns (tc, ppc), log)
        /\ log_parser self (Contents text') = (Returns (tc', ppc'), log)
        /\ tag_total tc' "Untagged" = S (tag_total tc "Untagged")
        /\ (forall tag, tag ≠ "Untagged" -> tag_total tc' tag = tag_total tc tag)
        /\ pair_total ppc' key = S (pair_total ppc key))
    /\ (forall c log,
          let st' := log_line (port_rule_dictionary self) (c, log) line in
          tag_total (tag_count st'.1) "Untagged"
          = S (tag_total (tag_count c) "Untagged")
          /\ (forall tag, tag ≠ "Untagged" ->
                tag_total (tag_count st'.1) tag = tag_total (tag_count c) tag)
          /\ pair_total (port_protocol_count st'.1) key
             = S (pair_total (port_protocol_count c) key)).
Proof.
  intros self text text' pre line post port Htext Htext' Hpre Hlen Hint key Hnone.
  split; [|intros c log;
           exact (log_line_untagged_record _ c log line port Hlen Hint Hnone)].
  pose proof (log_entry_fields line port Hlen Hint) as He. fold key in He.
  assert (Hempty : tags_of (port_rule_dictionary self) key = ∅).
  { unfold tags_of. now destruct Hnone as [-> | ->]. }
  assert (Hok : has_headers self = false \/ Py.readlines text ≠ []).
  { destruct (has_headers self); [right|now left].
    rewrite Htext. destruct pre; [now destruct Hpre|discriminate]. }
  assert (Hok' : has_headers self = false \/ Py.readlines text' ≠ []).
  { right. rewrite Htext'. now destruct pre. }
  pose proof (log_parser_run self text Hok) as Hrun.
  pose proof (log_parser_run self text' Hok') as Hrun'.
  rewrite Htext, skip_header_app in Hrun by exact Hpre.
  rewrite Htext', skip_header_app in Hrun' by exact Hpre.
  rewrite (warnings_with line key _ _ He) in Hrun'.
  set (a := skip_header (has_headers self) pre) in *.
  destruct (totals_of_fold (port_rule_dictionary self) (a ++ post))
    as (Hp & Ht & _).
  destruct (totals_of_fold (port_rule_dictionary self) (a ++ line :: post))
    as (Hp' & Ht' & _).
  eexists _, _, _, _, _. split; [exact Hrun|]. split; [exact Hrun'|].
  split; [|split].
  - rewrite Ht, Ht', (records_with line key _ _ He), omap_app.
    rewrite sum_list_with_key. unfold tag_hits at 1. rewrite Hempty.
    rewrite decide_False by (intros H; now apply H).
    now rewrite decide_True.
  - intros tag Hne. rewrite Ht, Ht', (records_with line key _ _ He), omap_app.
    rewrite sum_list_with_key. unfold tag_hits at 1. rewrite Hempty.
    rewrite decide_False by (intros H; now apply H).
    now rewrite decide_False.
  - rewrite Hp, Hp', (records_with line key _ _ He), omap_app.
    apply occurrences_with.
Qed.

Lemma classify_untagged_record_witness :
  Py.readlines record_of_test = [record_of_test] ++ []
  /\ Py.readlines (record_of_test +:+ untagged_record_of_test)
     = [record_of_test] ++ untagged_record_of_test :: []
  /\ (14 <= length (Py.split (Py.strip untagged_record_of_test)))%nat
  /\ Py.int (nth 6 (Py.split (Py.strip untagged_record_of_test)) "") = Some 8080
  /\ port_rule_dictionary analyzer_of_example !! (8080, "udp") = None
  /\ exists tc ppc tc' ppc' log,
      log_parser analyzer_of_example (Contents record_of_test)
      = (Returns (tc, ppc), log)
      /\ log_parser analyzer_of_example
                    (Contents (record_of_test +:+ untagged_record_of_test))
         = (Returns (tc', ppc'), log)
      /\ tag_total tc' "Untagged" = S (tag_total tc "Untagged").
Proof.
  assert (H1 : Py.readlines record_of_test = [record_of_test] ++ []) by reflexivity.
  assert (H2 : Py.readlines (record_of_test +:+ untagged_record_of_test)
               = [record_of_test] ++ untagged_record_of_test :: []) by reflexivity.
  assert (H3 : has_headers analyzer_of_example = true -> [record_of_test] ≠ [])
    by discriminate.
  assert (Hlen : (14 <= length (Py.split (Py.strip untagged_record_of_test)))%nat)
    by (vm_compute; lia).
  assert (Hint : Py.int (nth 6 (Py.split (Py.strip untagged_record_of_test)) "")
                 = Some 8080) by reflexivity.
  assert (Hkey : port_rule_dictionary analyzer_of_example !! (8080, "udp") = None)
    by (vm_compute; reflexivity).
  split; [exact H1|]. split; [exact H2|]. split; [exact Hlen|]. split; [exact Hint|].
  split; [exact Hkey|].
  destruct (proj1 (classify_untagged_record analyzer_of_example _ _ _ _ _ 8080
                     H1 H2 H3 Hlen Hint (or_introl Hkey)))
    as (tc & ppc & tc' & ppc' & log & Hrun & Hrun' & Htag & _).
  exists tc, ppc, tc', ppc', log.
  split; [exact Hrun|]. split; [exact Hrun'|exact Htag].
Defined.

(** C3: rows with the same key accumulate their tags by union.
    [parse_lookup_table] on a file that reads always returns, and in the
    index it leaves, the set of a key holds the tags the key had before
    the call and the tags of all the valid rows of the file that
    normalize to this key, and nothing else: nothing is overwritten, and
    a set holds a tag once.  So in a constructed analyzer the set of a
    key is exactly the set of the tags of its valid rows, and the table
    of the rows (80,tcp,web) and (80,tcp,http) gives the index with the
    one key (80,tcp) and the set of web and http.  The same holds of a
    single call of the loop body. *)
Theorem rule_index_union :
  (forall self text,
      exists (d' : RuleIndex) log,
        parse_lookup_table self (Contents text)
        = (Returns {| has_headers := has_headers self;
                      port_rule_dictionary := d' |}, log)
        /\ forall key tag,
            tag ∈ tags_of d' key <->
            tag ∈ tags_of (port_rule_dictionary self) key
            \/ exists line,
                In line (skip_header (has_headers self) (Py.readlines text))
                /\ lookup_entry line = Some (key, tag))
  /\ (forall text hh,
        exists (d : RuleIndex) log,
          LogAnalyzer_init (Contents text) hh
          = (Returns {| has_headers := hh; port_rule_dictionary := d |}, log)
          /\ forall key tag,
              tag ∈ tags_of d key <->
              exists line,
                In line (skip_header hh (Py.readlines text))
                /\ lookup_entry line = Some (key, tag))
  /\ LogAnalyzer_init
       (Contents ("dstport,protocol,tag" +:+ nl +:+ "80,tcp,web" +:+ nl
                  +:+ "80,tcp,http")) true
     = (Returns {| has_headers := true;
                   port_rule_dictionary := {[ (80, "tcp") := {[ "web"; "http" ]} ]} |},
        [])
  /\ (forall (d : RuleIndex) log line key tag,
        lookup_entry line = Some (key, tag) ->
        let d' := (lookup_line (d, log) line).1 in
        d' !! key = Some (tags_of d key ∪ {[tag]})
        /\ forall key', key ≠ key' -> d' !! key' = d !! key').
Proof.
  assert (Hrun : forall self text,
             exists (d' : RuleIndex) log,
               parse_lookup_table self (Contents text)
               = (Returns {| has_headers := has_headers self;
                             port_rule_dictionary := d' |}, log)
               /\ forall key tag,
                   tag ∈ tags_of d' key <->
                   tag ∈ tags_of (port_rule_dictionary self) key
                   \/ exists line,
                       In line (skip_header (has_headers self) (Py.readlines text))
                       /\ lookup_entry line = Some (key, tag)).
  { intros self text. unfold parse_lookup_table.
    pose proof (parse_lookup_lines_index (has_headers self) (Py.readlines text)
                  (port_rule_dictionary self)) as Hidx.
    destruct (parse_lookup_lines _ _ _) as [d' log]. cbn [fst] in Hidx.
    exists d', log. split; [reflexivity|]. intros key tag.
    rewrite Hidx. apply tags_of_fold. }
  split; [exact Hrun|]. split; [|split].
  - intros text hh. unfold LogAnalyzer_init.
    destruct (Hrun {| has_headers := hh; port_rule_dictionary := ∅ |} text)
      as (d & log & Hd & Htags).
    cbn [has_headers port_rule_dictionary] in Hd, Htags.
    exists d, log. split; [exact Hd|]. intros key tag. rewrite Htags.
    unfold tags_of at 1. rewrite lookup_empty. simpl. rewrite elem_of_empty. tauto.
  - vm_compute. reflexivity.
  - exact (proj1 lookup_lines_union).
Qed.

Lemma rule_index_union_witness :
  lookup_entry "80, TCP ,web" = Some ((80, "tcp"), "web")
  /\ (lookup_line ({[ (80, "tcp") := {[ "http" ]} ]}, []) "80, TCP ,web").1 !! (80, "tcp")
     = Some (tags_of {[ (80, "tcp") := {[ "http" ]} ]} (80, "tcp") ∪ {[ "web" ]}).
Proof.
  assert (He : lookup_entry "80, TCP ,web" = Some ((80, "tcp"), "web")) by reflexivity.
  split; [exact He|].
  exact (proj1 (proj2 (proj2 (proj2 rule_index_union))
                  {[ (80, "tcp") := {[ "http" ]} ]} []
                  "80, TCP ,web" (80, "tcp") "web" He)).
Defined.


